(** * The KYVE snapshot collector of ksync (app/collector/snapshots.go)

    A shallow embedding of the collector that resolves snapshot heights and
    locates snapshot bundles in a pool of finalized bundles, together with
    the properties its specification states about it.

    Go's [int64] is modelled as [Z] with the wrap-around of every
    arithmetic operation written out, Go strings as [string] (sequences of
    bytes), [(value, error)] results as a sum, a run-time panic as an
    explicit outcome, and the remote chain as a record of the functions of
    package [utils] the collector calls. *)

From Stdlib Require Import ZArith List String Ascii Bool Lia.
From Stdlib Require Import Strings.Byte.
Import ListNotations.
Local Open Scope Z_scope.

(** ** Go's int64 arithmetic *)

Module Int64.

Definition min_int64 : Z := - 2 ^ 63.
Definition max_int64 : Z := 2 ^ 63 - 1.

(** The values an [int64] variable can hold. *)
Definition int64 (z : Z) : Prop := min_int64 <= z <= max_int64.

(** Two's complement wrap-around of an exact result. *)
Definition wrap (z : Z) : Z := (z + 2 ^ 63) mod 2 ^ 64 - 2 ^ 63.

Definition add (a b : Z) : Z := wrap (a + b).
Definition sub (a b : Z) : Z := wrap (a - b).

(** [a / b] for a non-zero constant divisor: Go truncates towards zero. *)
Definition quot (a b : Z) : Z := wrap (Z.quot a b).

End Int64.

(** A Go function that returns a value can instead stop with a run-time
    panic; the only one the collector can raise itself is the integer
    division by zero of [%]. *)
Inductive runtime_panic : Type :=
| IntegerDivideByZero.

Inductive exec (A : Type) : Type :=
| Returns (a : A)
| Panics (p : runtime_panic).
Arguments Returns {A} a.
Arguments Panics {A} p.

(** [a % b]: the remainder has the sign of [a]; a zero divisor panics. *)
Definition rem64 (a b : Z) : exec Z :=
  if b =? 0 then Panics IntegerDivideByZero
  else Returns (Int64.wrap (Z.rem a b)).

(** ** The two functions of Go's standard library the constructor uses *)

Module GoStrings.

(** [strings.Split(s, sep)] for a separator of one byte: the fields
    between the separators, so one more field than there are separators
    (the empty string gives one empty field). *)
Fixpoint Split (s : string) (sep : ascii) : list string :=
  match s with
  | EmptyString => [EmptyString]
  | String c rest =>
      if Ascii.eqb c sep then EmptyString :: Split rest sep
      else match Split rest sep with
           | field :: fields => String c field :: fields
           | [] => [String c EmptyString]
           end
  end.

(** The two errors of [strconv]. *)
Inductive NumError : Type :=
| ErrSyntax
| ErrRange.

Definition digit_of (c : ascii) : option Z :=
  let n := Z.of_N (N_of_ascii c) in
  if (48 <=? n) && (n <=? 57) then Some (n - 48) else None.

Definition max_uint64 : Z := 2 ^ 64 - 1.

(** The digit loop of [strconv.ParseUint(s, 10, 64)]: a byte that is not
    a decimal digit is a syntax error, a value above [max_uint64] a range
    error, whichever the scan meets first. *)
Fixpoint parse_digits (s : string) (n : Z) : NumError + Z :=
  match s with
  | EmptyString => inr n
  | String c rest =>
      match digit_of c with
      | None => inl ErrSyntax
      | Some d =>
          if max_uint64 / 10 + 1 <=? n then inl ErrRange
          else
            let n1 := n * 10 + d in
            if max_uint64 <? n1 then inl ErrRange
            else parse_digits rest n1
      end
  end.

(** [strconv.ParseInt(s, 10, 64)]: an optional sign, then at least one
    decimal digit, and a value that fits an int64. *)
Definition ParseInt (s : string) : NumError + Z :=
  match s with
  | EmptyString => inl ErrSyntax
  | String c rest =>
      let neg := Ascii.eqb c "-"%char in
      let body := if Ascii.eqb c "+"%char || neg then rest else s in
      match body with
      | EmptyString => inl ErrSyntax
      | _ =>
          match parse_digits body 0 with
          | inl e => inl e
          | inr un =>
              if negb neg && (2 ^ 63 <=? un) then inl ErrRange
              else if neg && (2 ^ 63 <? un) then inl ErrRange
              else inr (if neg then - un else un)
          end
      end
  end.

End GoStrings.

(** ** Data *)

(** Modelled from the spec: [types.TendermintSSyncConfig] is declared
    outside the sources.  The pool config is JSON of the form
    {interval: int}; the collector reads [config.Interval], an int64. *)
Record TendermintSSyncConfig : Type := {
  Interval : Z
}.

(** Modelled from the spec: the pool response of package [utils] is
    declared outside the sources.  The pool's data has runtime, config,
    startKey, currentKey, currentSummary and totalBundles; the collector
    reads them as [poolResponse.Pool.Data.Runtime] and so on. *)
Record PoolData : Type := {
  Runtime : string;
  Config : string;
  StartKey : string;
  CurrentKey : string;
  CurrentSummary : string;
  TotalBundles : Z
}.

Record PoolInfo : Type := {
  Data : PoolData
}.

Record PoolResponse : Type := {
  Pool : PoolInfo
}.

Record KyveSnapshotCollector : Type := {
  poolId : Z;
  chainRest : string;
  earliestAvailableHeight : Z;
  latestAvailableHeight : Z;
  interval : Z;
  totalBundles : Z
}.

(** ** What the collector takes from outside this file

    Package [utils], the bundle types of package [types] and the JSON
    decoder: the collector only calls them, so they are a parameter of the
    whole development.  [cause] is the type of the errors they return. *)
Record Externals : Type := {
  cause : Type;
  FinalizedBundle : Type;
  ToKey : FinalizedBundle -> string;
  SnapshotDataItem : Type;
  Chunk : SnapshotDataItem -> list byte;              (* item.Value.Chunk *)
  RuntimeTendermintSsync : string;
  GetPool : string -> Z -> cause + PoolResponse;
  ParseSnapshotFromKey : string -> cause + (Z * Z);
  GetFinalizedBundleById : string -> Z -> Z -> cause + FinalizedBundle;
  GetDataFromFinalizedBundle : FinalizedBundle -> cause + list byte;
  UnmarshalConfig : string -> cause + TendermintSSyncConfig;
  UnmarshalBundle : list byte -> cause + list SnapshotDataItem
}.

(** The errors the collector builds, one constructor for each message, with
    the values the message is formatted from and the wrapped cause. *)
Inductive error (cause : Type) : Type :=
| PoolFetchError (poolId : Z) (e : cause)
    (* fail to get pool with id %d *)
| InvalidRuntimeError (poolId : Z) (expected found : string)
    (* found invalid runtime on snapshot pool %d *)
| ConfigParseError (config : string) (e : cause)
    (* failed to unmarshal snapshot pool config %s *)
| StartKeyFormatError (key : string) (e : cause)
    (* failed to parse height %s from start key *)
| CurrentKeyFormatError (key : string) (e : cause)
    (* failed to parse height %s from current key *)
| BundleByIdError (bundleId : Z) (e : cause)
    (* failed getting finalized bundle by id %d *)
| BundleDataError (e : cause)
    (* failed getting data from finalized bundle *)
| BundleParseError (e : cause)
    (* failed to unmarshal snapshot bundle *)
| MalformedBundleError
    (* found multiple bundles in snapshot bundle *)
| BundleWithIdError (bundleId : Z) (e : cause)
    (* failed to get finalized bundle with id %d *)
| SnapshotKeyFormatError (key : string) (e : cause)
    (* failed to parse snapshot key %s *)
| HeightNotFoundError (height : Z).
    (* failed to find snapshot bundle id for height %d *)

Arguments PoolFetchError {cause} poolId e.
Arguments InvalidRuntimeError {cause} poolId expected found.
Arguments ConfigParseError {cause} config e.
Arguments StartKeyFormatError {cause} key e.
Arguments CurrentKeyFormatError {cause} key e.
Arguments BundleByIdError {cause} bundleId e.
Arguments BundleDataError {cause} e.
Arguments BundleParseError {cause} e.
Arguments MalformedBundleError {cause}.
Arguments BundleWithIdError {cause} bundleId e.
Arguments SnapshotKeyFormatError {cause} key e.
Arguments HeightNotFoundError {cause} height.

(** ** The error monad of [(value, error)] results *)

Definition result (cause A : Type) : Type := error cause + A.

Definition bind {cause A B} (m : result cause A) (k : A -> result cause B)
  : result cause B :=
  match m with
  | inl e => inl e
  | inr a => k a
  end.

(** [call `orelse` wrapper]: the call's value, or its error wrapped the way
    [fmt.Errorf("...: %w", err)] does. *)
Definition orelse {cause A} (call : cause + A) (wrapper : cause -> error cause)
  : result cause A :=
  match call with
  | inl e => inl (wrapper e)
  | inr a => inr a
  end.

Declare Scope go_scope.
Notation "x <- m ;; k" := (bind m (fun x => k))
  (at level 61, m at next level, right associativity) : go_scope.
Notation "' pat <- m ;; k" := (bind m (fun x => match x with pat => k end))
  (at level 61, pat pattern, m at next level, right associativity) : go_scope.
Infix "`orelse`" := orelse (at level 50, left associativity) : go_scope.
Local Open Scope go_scope.

(** What one run of the bundle search does on the network, in order. *)
Inductive probe : Type :=
| Fetch (bundleId : Z)       (* utils.GetFinalizedBundleById *)
| Sleep.                     (* time.Sleep(utils.RequestTimeoutMS) *)

(** ** The collector *)

Section Collector.

Variable X : Externals.

Definition NewKyveSnapshotCollector (poolId : Z) (chainRest : string)
  : result (cause X) KyveSnapshotCollector :=
  poolResponse <- GetPool X chainRest poolId `orelse` PoolFetchError poolId ;;
  let data := Data (Pool poolResponse) in
  if negb (String.eqb (Runtime data) (RuntimeTendermintSsync X)) then
    inl (InvalidRuntimeError poolId (RuntimeTendermintSsync X) (Runtime data))
  else
    config <- UnmarshalConfig X (Config data)
                `orelse` ConfigParseError (Config data) ;;
    '(startHeight, _) <- ParseSnapshotFromKey X (StartKey data)
                `orelse` StartKeyFormatError (StartKey data) ;;
    '(currentHeight, chunkIndex) <- ParseSnapshotFromKey X (CurrentKey data)
                `orelse` CurrentKeyFormatError (CurrentKey data) ;;
    let latestAvailableHeight := Int64.sub currentHeight (Interval config) in
    let summary := GoStrings.Split (CurrentSummary data) "/"%char in
    let latestAvailableHeight :=
      if (List.length summary =? 4)%nat then
        match GoStrings.ParseInt (nth 3 summary EmptyString) with
        | inr totalChunks =>
            if totalChunks =? Int64.add chunkIndex 1 then currentHeight
            else latestAvailableHeight
        | inl _ => latestAvailableHeight
        end
      else latestAvailableHeight in
    inr {| poolId := poolId;
           chainRest := chainRest;
           earliestAvailableHeight := startHeight;
           latestAvailableHeight := latestAvailableHeight;
           interval := Interval config;
           totalBundles := TotalBundles data |}.

Definition GetEarliestAvailableHeight (collector : KyveSnapshotCollector) : Z :=
  earliestAvailableHeight collector.

Definition GetLatestAvailableHeight (collector : KyveSnapshotCollector) : Z :=
  latestAvailableHeight collector.

Definition GetInterval (collector : KyveSnapshotCollector) : Z :=
  interval collector.

Definition GetSnapshotHeight (collector : KyveSnapshotCollector)
    (targetHeight : Z) (isServeSnapshot : bool) : exec Z :=
  if (targetHeight =? 0) || (latestAvailableHeight collector <? targetHeight)
  then
    if isServeSnapshot && (interval collector <? latestAvailableHeight collector)
    then Returns (Int64.sub (latestAvailableHeight collector) (interval collector))
    else Returns (latestAvailableHeight collector)
  else
    match rem64 targetHeight (interval collector) with
    | Panics p => Panics p
    | Returns r => Returns (Int64.sub targetHeight r)
    end.

Definition GetCurrentHeight (collector : KyveSnapshotCollector) : result (cause X) Z :=
  poolResponse <- GetPool X (chainRest collector) (poolId collector)
                    `orelse` PoolFetchError (poolId collector) ;;
  let data := Data (Pool poolResponse) in
  '(currentHeight, _) <- ParseSnapshotFromKey X (CurrentKey data)
                    `orelse` CurrentKeyFormatError (CurrentKey data) ;;
  inr currentHeight.

Definition GetSnapshotFromBundleId (collector : KyveSnapshotCollector)
    (bundleId : Z) : result (cause X) (SnapshotDataItem X) :=
  chunkBundleFinalized <-
    GetFinalizedBundleById X (chainRest collector) (poolId collector) bundleId
      `orelse` BundleByIdError bundleId ;;
  data <- GetDataFromFinalizedBundle X chunkBundleFinalized
      `orelse` BundleDataError ;;
  bundle <- UnmarshalBundle X data `orelse` BundleParseError ;;
  match bundle with
  | [item] => inr item                      (* len(bundle) == 1 *)
  | _ => inl MalformedBundleError
  end.

Definition DownloadChunkFromBundleId (collector : KyveSnapshotCollector)
    (bundleId : Z) : result (cause X) (list byte) :=
  chunkBundleFinalized <-
    GetFinalizedBundleById X (chainRest collector) (poolId collector) bundleId
      `orelse` BundleByIdError bundleId ;;
  data <- GetDataFromFinalizedBundle X chunkBundleFinalized
      `orelse` BundleDataError ;;
  bundle <- UnmarshalBundle X data `orelse` BundleParseError ;;
  match bundle with
  | [item] => inr (Chunk X item)            (* bundle[0].Value.Chunk *)
  | _ => inl MalformedBundleError
  end.

(** The loop of [FindSnapshotBundleIdForHeight].  One unit of [fuel] pays
    for one iteration; [None] is a loop that wants more iterations than
    it was given.  The log lists the requests and sleeps in order. *)
Fixpoint binarySearch (fuel : nat) (collector : KyveSnapshotCollector)
    (height low high : Z) : option (list probe * result (cause X) Z) :=
  if high <? low then Some ([], inl (HeightNotFoundError height))
  else
    match fuel with
    | O => None
    | S fuel' =>
        let mid := Int64.quot (Int64.add low high) 2 in
        match GetFinalizedBundleById X (chainRest collector)
                (poolId collector) mid with
        | inl e => Some ([Fetch mid], inl (BundleWithIdError mid e))
        | inr finalizedBundle =>
            match ParseSnapshotFromKey X (ToKey X finalizedBundle) with
            | inl e =>
                Some ([Fetch mid],
                      inl (SnapshotKeyFormatError (ToKey X finalizedBundle) e))
            | inr (h, chunkIndex) =>
                let continue (low high : Z) :=
                  match binarySearch fuel' collector height low high with
                  | Some (log, r) => Some (Fetch mid :: Sleep :: log, r)
                  | None => None
                  end in
                if h <? height then continue (Int64.add mid 1) high
                else if height <? h then continue low (Int64.sub mid 1)
                else Some ([Fetch mid], inr (Int64.sub mid chunkIndex))
            end
        end
    end.

Definition FindSnapshotBundleIdForHeight (fuel : nat)
    (collector : KyveSnapshotCollector) (height : Z)
  : option (list probe * result (cause X) Z) :=
  let latestBundleId := Int64.sub (totalBundles collector) 1 in
  let search (log : list probe) :=
    match binarySearch fuel collector height 0 latestBundleId with
    | Some (log', r) => Some (log ++ log', r)
    | None => None
    end in
  if height =? latestAvailableHeight collector then
    match GetFinalizedBundleById X (chainRest collector)
            (poolId collector) latestBundleId with
    | inl e =>
        Some ([Fetch latestBundleId], inl (BundleWithIdError latestBundleId e))
    | inr finalizedBundle =>
        match ParseSnapshotFromKey X (ToKey X finalizedBundle) with
        | inl e =>
            Some ([Fetch latestBundleId],
                  inl (SnapshotKeyFormatError (ToKey X finalizedBundle) e))
        | inr (h, chunkIndex) =>
            if h =? height
            then Some ([Fetch latestBundleId],
                       inr (Int64.sub latestBundleId chunkIndex))
            else search [Fetch latestBundleId]
        end
    end
  else search [].

End Collector.

(** ** A synthetic pool

    A remote that always answers: a fixed pool response, a config that
    decodes to a fixed value (or fails to), the finalized bundles
    [0 .. n-1] given as a list, and a given decoder of bundle payloads into
    the chunks of their data items.  The examples below run the collector
    against it. *)

Inductive synthetic_error : Type :=
| BundleNotFound
| KeyFormatError
| JsonError.

Record SyntheticBundle : Type := {
  to_key : string;
  payload : list byte
}.

(** [l[i]] for an int64 index; [None] outside [0 .. len(l)-1]. *)
Definition lookupZ {A : Type} (l : list A) (i : Z) : option A :=
  if i <? 0 then None else nth_error l (Z.to_nat i).

(** Modelled from the spec: [utils.ParseSnapshotFromKey] is called by the
    collector but is not among the sources.  The compound key is the ASCII
    string "<height>/<partIndex>" and parsing fails with [KeyFormatError] on
    non-integer components. *)
Definition decodeSnapshotKey (key : string) : synthetic_error + (Z * Z) :=
  match GoStrings.Split key "/"%char with
  | [height; partIndex] =>
      match GoStrings.ParseInt height, GoStrings.ParseInt partIndex with
      | inr h, inr p => inr (h, p)
      | _, _ => inl KeyFormatError
      end
  | _ => inl KeyFormatError
  end.

Definition synthetic (runtime : string) (pool : PoolData)
    (config : synthetic_error + TendermintSSyncConfig)
    (bundles : list SyntheticBundle)
    (decode : list byte -> synthetic_error + list (list byte)) : Externals :=
  {| cause := synthetic_error;
     FinalizedBundle := SyntheticBundle;
     ToKey := to_key;
     SnapshotDataItem := list byte;
     Chunk := fun item => item;
     RuntimeTendermintSsync := runtime;
     GetPool := fun _ _ => inr {| Pool := {| Data := pool |} |};
     ParseSnapshotFromKey := decodeSnapshotKey;
     GetFinalizedBundleById := fun _ _ id =>
       match lookupZ bundles id with
       | Some b => inr b
       | None => inl BundleNotFound
       end;
     GetDataFromFinalizedBundle := fun b => inr (payload b);
     UnmarshalConfig := fun _ => config;
     UnmarshalBundle := decode |}.

Definition dquote : string := String (ascii_of_nat 34) EmptyString.

(** The pool of the specification's end-to-end scenario. *)
Definition scenario_pool : PoolData :=
  {| Runtime := "tendermint-ssync";
     Config := "{" ++ dquote ++ "interval" ++ dquote ++ ":1000}";
     StartKey := "0/0";
     CurrentKey := "5000/2";
     CurrentSummary := "5000/1/2/5";
     TotalBundles := 10 |}.

Definition scenario_bundles : list SyntheticBundle :=
  map (fun key => {| to_key := key; payload := [] |})
    ["1000/0"; "1000/1"; "2000/0"; "2000/1"; "3000/0"; "3000/1";
     "4000/0"; "4000/1"; "4000/2"; "4000/3"]%string.

Definition scenario : Externals :=
  synthetic "tendermint-ssync" scenario_pool (inr {| Interval := 1000 |})
    scenario_bundles (fun data => inr [data]).

Definition scenario_collector : KyveSnapshotCollector :=
  {| poolId := 7; chainRest := "rest";
     earliestAvailableHeight := 0; latestAvailableHeight := 4000;
     interval := 1000; totalBundles := 10 |}.

(** ** The vocabulary of the properties *)

(** The summary reports the current snapshot complete: four fields, the
    fourth the decimal form of [chunkIndex + 1]. *)
Definition summary_complete (summary : string) (chunkIndex : Z) : Prop :=
  exists f0 f1 f2 f3,
    GoStrings.Split summary "/"%char = [f0; f1; f2; f3] /\
    GoStrings.ParseInt f3 = inr (Int64.add chunkIndex 1).

(** The remote of [X] holds, for the pool of [c], exactly the finalized
    bundles [0 .. n-1] whose [toKey]s decode to [keys], and [c] was built
    when the pool had these [n] bundles. *)
Definition pool_holds (X : Externals) (c : KyveSnapshotCollector)
    (keys : list (Z * Z)) : Prop :=
  totalBundles c = Z.of_nat (List.length keys) /\
  forall id : Z,
    match lookupZ keys id with
    | Some key =>
        exists b, GetFinalizedBundleById X (chainRest c) (poolId c) id = inr b /\
                  ParseSnapshotFromKey X (ToKey X b) = inr key
    | None =>
        exists e, GetFinalizedBundleById X (chainRest c) (poolId c) id = inl e
    end.

(** Heights never decrease along the bundle ids. *)
Fixpoint nondecreasing (heights : list Z) : bool :=
  match heights with
  | [] => true
  | h :: rest =>
      match rest with
      | [] => true
      | h' :: _ => (h <=? h') && nondecreasing rest
      end
  end.

(** The part indices count 0, 1, 2, ... along every run of bundles of one
    height: a bundle continues the run of the bundle before it ([prev]) with
    the next part index, or starts a new height at part 0. *)
Fixpoint parts_numbered_after (prev : option (Z * Z)) (keys : list (Z * Z))
  : bool :=
  match keys with
  | [] => true
  | (h, p) :: rest =>
      match prev with
      | Some (h', p') => if h' =? h then p =? p' + 1 else p =? 0
      | None => p =? 0
      end && parts_numbered_after (Some (h, p)) rest
  end.

Definition parts_numbered (keys : list (Z * Z)) : bool :=
  parts_numbered_after None keys.

(** [b] is the first bundle of height [h]: its key is [(h, 0)] and the
    bundle before it, if there is one, is of a smaller height. *)
Definition first_bundle_of (keys : list (Z * Z)) (h b : Z) : Prop :=
  lookupZ keys b = Some (h, 0) /\
  (b = 0 \/ exists key, lookupZ keys (b - 1) = Some key /\ fst key < h).

(** A collector whose latest snapshot is younger than one interval. *)
Definition young_collector : KyveSnapshotCollector :=
  {| poolId := 7; chainRest := "rest";
     earliestAvailableHeight := 500; latestAvailableHeight := 500;
     interval := 1000; totalBundles := 1 |}.

(** The pools of the summary examples: the summary reports four parts and
    the current key is at part 3, the last one, or at part 2. *)
Definition complete_pool : PoolData :=
  {| Runtime := "tendermint-ssync";
     Config := "{" ++ dquote ++ "interval" ++ dquote ++ ":20}";
     StartKey := "20/0";
     CurrentKey := "100/3";
     CurrentSummary := "100/1/3/4";
     TotalBundles := 20 |}.

Definition incomplete_pool : PoolData :=
  {| Runtime := "tendermint-ssync";
     Config := "{" ++ dquote ++ "interval" ++ dquote ++ ":20}";
     StartKey := "20/0";
     CurrentKey := "100/2";
     CurrentSummary := "100/1/3/4";
     TotalBundles := 19 |}.

Definition summary_remote (pool : PoolData) : Externals :=
  synthetic "tendermint-ssync" pool (inr {| Interval := 20 |}) []
    (fun data => inr [data]).

(** A pool of another runtime, whose config is not even JSON. *)
Definition bsync_pool : PoolData :=
  {| Runtime := "tendermint-bsync";
     Config := "not json";
     StartKey := "1";
     CurrentKey := "150";
     CurrentSummary := "150";
     TotalBundles := 1 |}.

Definition bsync_remote : Externals :=
  synthetic "tendermint-ssync" bsync_pool (inl JsonError) []
    (fun data => inr [data]).

(** A young snapshot pool: the first chunk of its first snapshot, taken at
    height 1000, is the only bundle finalized so far. *)
Definition fresh_pool : PoolData :=
  {| Runtime := "tendermint-ssync";
     Config := "{" ++ dquote ++ "interval" ++ dquote ++ ":1000}";
     StartKey := "1000/0";
     CurrentKey := "1000/0";
     CurrentSummary := "1000/1/0/5";
     TotalBundles := 1 |}.

Definition fresh_remote : Externals :=
  synthetic "tendermint-ssync" fresh_pool (inr {| Interval := 1000 |})
    [{| to_key := "1000/0"; payload := [] |}] (fun data => inr [data]).

(** A pool whose config is the empty JSON object, which decodes to the
    interval 0. *)
Definition zero_interval_pool : PoolData :=
  {| Runtime := "tendermint-ssync";
     Config := "{}";
     StartKey := "0/0";
     CurrentKey := "5000/2";
     CurrentSummary := "5000/1/2/5";
     TotalBundles := 10 |}.

Definition zero_interval_remote : Externals :=
  synthetic "tendermint-ssync" zero_interval_pool (inr {| Interval := 0 |})
    scenario_bundles (fun data => inr [data]).

Definition scenario_keys : list (Z * Z) :=
  [(1000, 0); (1000, 1); (2000, 0); (2000, 1); (3000, 0); (3000, 1);
   (4000, 0); (4000, 1); (4000, 2); (4000, 3)].

(** A collector of the scenario's pool that does not know of the snapshot
    at 4000 yet. *)
Definition stale_collector : KyveSnapshotCollector :=
  {| poolId := 7; chainRest := "rest";
     earliestAvailableHeight := 0; latestAvailableHeight := 3000;
     interval := 1000; totalBundles := 10 |}.

(** A pool in which the first chunk of the snapshot at 1000 spans three
    bundles: all three end at the key "1000/0". *)
Definition split_keys : list (Z * Z) :=
  [(1000, 0); (1000, 0); (1000, 0); (2000, 0)].

Definition split_remote : Externals :=
  synthetic "tendermint-ssync" scenario_pool (inr {| Interval := 1000 |})
    (map (fun key => {| to_key := key; payload := [] |})
       ["1000/0"; "1000/0"; "1000/0"; "2000/0"]%string)
    (fun data => inr [data]).

Definition split_collector : KyveSnapshotCollector :=
  {| poolId := 7; chainRest := "rest";
     earliestAvailableHeight := 1000; latestAvailableHeight := 2000;
     interval := 1000; totalBundles := 4 |}.

(** A pool without a finalized bundle. *)
Definition empty_remote : Externals :=
  synthetic "tendermint-ssync" scenario_pool (inr {| Interval := 1000 |})
    [] (fun data => inr [data]).

Definition empty_collector : KyveSnapshotCollector :=
  {| poolId := 7; chainRest := "rest";
     earliestAvailableHeight := 0; latestAvailableHeight := 0;
     interval := 1000; totalBundles := 0 |}.

(** A pool of one bundle with a payload of two bytes, read with a decoder
    that makes the payload one data item, and with one that makes every
    byte a data item. *)
Definition chunk_bundles : list SyntheticBundle :=
  [{| to_key := "1000/0"; payload := [x01; x02] |}].

Definition one_item_remote : Externals :=
  synthetic "tendermint-ssync" scenario_pool (inr {| Interval := 1000 |})
    chunk_bundles (fun data => inr [data]).

Definition item_per_byte_remote : Externals :=
  synthetic "tendermint-ssync" scenario_pool (inr {| Interval := 1000 |})
    chunk_bundles (fun data => inr (map (fun b => [b]) data)).

(** A remote that cannot be reached: every request fails. *)
Definition offline : Externals :=
  {| cause := string;
     FinalizedBundle := SyntheticBundle;
     ToKey := to_key;
     SnapshotDataItem := list byte;
     Chunk := fun item => item;
     RuntimeTendermintSsync := "tendermint-ssync";
     GetPool := fun _ _ => inl "connection refused"%string;
     ParseSnapshotFromKey := fun key =>
       match decodeSnapshotKey key with
       | inr k => inr k
       | inl _ => inl "key format"%string
       end;
     GetFinalizedBundleById := fun _ _ _ => inl "connection refused"%string;
     GetDataFromFinalizedBundle := fun _ => inl "connection refused"%string;
     UnmarshalConfig := fun _ => inl "not reached"%string;
     UnmarshalBundle := fun _ => inl "not reached"%string |}.

(** A snapshot pool in which no bundle was finalized yet: its current key
    is empty. *)
Definition unstarted_pool : PoolData :=
  {| Runtime := "tendermint-ssync";
     Config := "{" ++ dquote ++ "interval" ++ dquote ++ ":1000}";
     StartKey := "1000/0";
     CurrentKey := "";
     CurrentSummary := "";
     TotalBundles := 0 |}.

Definition unstarted_remote : Externals :=
  synthetic "tendermint-ssync" unstarted_pool (inr {| Interval := 1000 |})
    [] (fun data => inr [data]).

(** The scenario's pool with a config that does not decode. *)
Definition misconfigured_remote : Externals :=
  synthetic "tendermint-ssync" scenario_pool (inl JsonError)
    scenario_bundles (fun data => inr [data]).

(** The bundle ids a log requests, in order. *)
Fixpoint fetched (log : list probe) : list Z :=
  match log with
  | [] => []
  | Fetch id :: rest => id :: fetched rest
  | Sleep :: rest => fetched rest
  end.

(** No request of the log is directly followed by another request. *)
Fixpoint paced (log : list probe) : bool :=
  match log with
  | [] => true
  | Fetch _ :: rest =>
      match rest with
      | Fetch _ :: _ => false
      | _ => paced rest
      end
  | Sleep :: rest => paced rest
  end.

(** What a result of the bundle search rests on: an answer, on the key of
    the bundle requested last, which is at the asked height; a request or
    key error, on the request made last. *)
Definition decided_by_last_request (X : Externals) (c : KyveSnapshotCollector)
    (height : Z) (log : list probe) (r : result (cause X) Z) : Prop :=
  match r with
  | inr answer =>
      exists before id b p,
        log = before ++ [Fetch id] /\
        GetFinalizedBundleById X (chainRest c) (poolId c) id = inr b /\
        ParseSnapshotFromKey X (ToKey X b) = inr (height, p) /\
        answer = Int64.sub id p
  | inl (BundleWithIdError id e) =>
      exists before,
        log = before ++ [Fetch id] /\
        GetFinalizedBundleById X (chainRest c) (poolId c) id = inl e
  | inl (SnapshotKeyFormatError key e) =>
      exists before id b,
        log = before ++ [Fetch id] /\
        GetFinalizedBundleById X (chainRest c) (poolId c) id = inr b /\
        key = ToKey X b /\ ParseSnapshotFromKey X key = inl e
  | inl (HeightNotFoundError h) => h = height
  | inl _ => False
  end.

(** ** The start command (cmd/ksync/commands, the command [start])

    [strings.TrimSuffix(s, suffix)] for a suffix of one byte: [s] without
    that byte if it ends with it, removed once; [s] itself otherwise. *)
Fixpoint TrimSuffix (s : string) (suffix : ascii) : string :=
  match s with
  | EmptyString => EmptyString
  | String c rest =>
      match rest with
      | EmptyString => if Ascii.eqb c suffix then EmptyString else s
      | _ => String c (TrimSuffix rest suffix)
      end
  end.

Module StartCommand.

(** The package variables the flags of the command are bound to. *)
Record Globals : Type := {
  daemonPath : string;
  flags : string;
  mode : string;
  home : string;
  poolId : Z;
  seeds : string;
  targetHeight : Z;
  chainId : string;
  restEndpoint : string
}.

(** The default endpoints of package [utils], which are not among the
    sources: a parameter. *)
Record Endpoints : Type := {
  RestEndpointMainnet : string;
  RestEndpointKaon : string;
  RestEndpointKorellia : string
}.

(** The executor the command hands over to, with the arguments of the call
    (all but the completion channel).  The auto executor is called in
    place; the other two are started as goroutines. *)
Inductive launch : Type :=
| StartAutoExecutor (home daemonPath seeds flags : string) (poolId : Z)
    (restEndpoint : string) (targetHeight : Z)
| StartDBExecutor (home : string) (poolId : Z) (restEndpoint : string)
    (targetHeight : Z)
| StartP2PExecutor (home : string) (poolId : Z) (restEndpoint : string)
    (targetHeight : Z).

(** The three calls of [panic] in the command. *)
Inductive start_panic : Type :=
| InvalidChainId        (* flag --chain-id has to be either ... *)
| DaemonPathRequired    (* flag --daemon-path is required for mode auto *)
| InvalidMode.          (* flag --mode has to be either ... *)

Inductive outcome : Type :=
| Panicked (p : start_panic)
| Started (l : launch).

Definition set_restEndpoint (g : Globals) (endpoint : string) : Globals :=
  {| daemonPath := daemonPath g; flags := flags g; mode := mode g;
     home := home g; poolId := poolId g; seeds := seeds g;
     targetHeight := targetHeight g; chainId := chainId g;
     restEndpoint := endpoint |}.

(** The body of the command: the package variables it leaves behind, and
    the executor it starts or the panic it stops with.  The wait for the
    executor's completion that follows a start is not part of the model. *)
Definition Run (E : Endpoints) (g : Globals) : Globals * outcome :=
  let resolved : start_panic + Globals :=
    if String.eqb (restEndpoint g) "" then
      if String.eqb (chainId g) "kyve-1"
      then inr (set_restEndpoint g (RestEndpointMainnet E))
      else if String.eqb (chainId g) "kaon-1"
      then inr (set_restEndpoint g (RestEndpointKaon E))
      else if String.eqb (chainId g) "korellia"
      then inr (set_restEndpoint g (RestEndpointKorellia E))
      else inl InvalidChainId
    else inr g in
  match resolved with
  | inl p => (g, Panicked p)
  | inr g =>
      let g := set_restEndpoint g (TrimSuffix (restEndpoint g) "/"%char) in
      if String.eqb (mode g) "auto" then
        if String.eqb (daemonPath g) "" then (g, Panicked DaemonPathRequired)
        else (g, Started (StartAutoExecutor (home g) (daemonPath g) (seeds g)
                            (flags g) (poolId g) (restEndpoint g)
                            (targetHeight g)))
      else if String.eqb (mode g) "db" then
        (g, Started (StartDBExecutor (home g) (poolId g) (restEndpoint g)
                       (targetHeight g)))
      else if String.eqb (mode g) "p2p" then
        (g, Started (StartP2PExecutor (home g) (poolId g) (restEndpoint g)
                       (targetHeight g)))
      else (g, Panicked InvalidMode)
  end.

(** The chain ids the command knows an endpoint for. *)
Definition known_chain (id : string) : Prop :=
  id = "kyve-1"%string \/ id = "kaon-1"%string \/ id = "korellia"%string.

Definition example_endpoints : Endpoints :=
  {| RestEndpointMainnet := "https://api.kyve.network";
     RestEndpointKaon := "https://api.kaon.kyve.network";
     RestEndpointKorellia := "https://api.korellia.kyve.network" |}.

Definition example_globals : Globals :=
  {| daemonPath := ""; flags := ""; mode := "db"; home := "/node";
     poolId := 7; seeds := ""; targetHeight := 0; chainId := "kyve-1";
     restEndpoint := "" |}.

End StartCommand.

(** ** Arithmetic facts *)

Lemma wrap_small (z : Z) : Int64.int64 z -> Int64.wrap z = z.
Proof.
  unfold Int64.int64, Int64.wrap, Int64.min_int64, Int64.max_int64.
  intros Hz. rewrite Z.mod_small; lia.
Qed.

Lemma sub_exact (a b : Z) : Int64.int64 (a - b) -> Int64.sub a b = a - b.
Proof. apply wrap_small. Qed.

Lemma add_exact (a b : Z) : Int64.int64 (a + b) -> Int64.add a b = a + b.
Proof. apply wrap_small. Qed.

(** Go's remainder of a positive target by a positive interval. *)
Lemma rem_of_grid_point (k i r : Z) :
  0 < i -> 0 <= r < i -> 0 <= k * i + r -> Z.rem (k * i + r) i = r.
Proof.
  intros Hi Hr Ht.
  rewrite Z.rem_mod_nonneg by lia.
  symmetry. apply (Z.mod_unique_pos _ _ k). lia. lia.
Qed.

(** ** The specification's scenarios, run *)

Example Split_summary :
  GoStrings.Split "100/1/3/4" "/"%char
    = ["100"; "1"; "3"; "4"]%string.
Proof. reflexivity. Qed.

Example Split_empty : GoStrings.Split "" "/"%char = [""%string].
Proof. reflexivity. Qed.

Example ParseInt_bounds :
  GoStrings.ParseInt "-9223372036854775808" = inr (- 2 ^ 63) /\
  GoStrings.ParseInt "9223372036854775808" = inl GoStrings.ErrRange /\
  GoStrings.ParseInt "+12" = inr 12 /\
  GoStrings.ParseInt "4x" = inl GoStrings.ErrSyntax /\
  GoStrings.ParseInt "" = inl GoStrings.ErrSyntax.
Proof. repeat split. Qed.

Example scenario_construction :
  NewKyveSnapshotCollector scenario 7 "rest" = inr scenario_collector.
Proof. reflexivity. Qed.

Example scenario_target :
  GetSnapshotHeight scenario_collector 4500 false = Returns 4000.
Proof. reflexivity. Qed.

Example scenario_search :
  binarySearch scenario 10 scenario_collector 4000 0 9
    = Some ([Fetch 4; Sleep; Fetch 7], inr 6).
Proof. reflexivity. Qed.

Example scenario_search_exhausted :
  binarySearch scenario 10 scenario_collector 3500 0 9
    = Some ([Fetch 4; Sleep; Fetch 7; Sleep; Fetch 5; Sleep; Fetch 6; Sleep],
            inl (HeightNotFoundError 3500)).
Proof. reflexivity. Qed.

Example scenario_current_height :
  GetCurrentHeight scenario scenario_collector = inr 5000.
Proof. reflexivity. Qed.

(** ** Resolving a target height *)

Section SnapshotHeight.

Variable c : KyveSnapshotCollector.

Lemma latest_request_answer (targetHeight : Z) (serve : bool) :
  targetHeight = 0 \/ latestAvailableHeight c < targetHeight ->
  GetSnapshotHeight c targetHeight serve =
    Returns (if serve && (interval c <? latestAvailableHeight c)
             then Int64.sub (latestAvailableHeight c) (interval c)
             else latestAvailableHeight c).
Proof.
  intros H. unfold GetSnapshotHeight.
  replace ((targetHeight =? 0) || (latestAvailableHeight c <? targetHeight))
    with true.
  - now destruct (serve && _).
  - symmetry. apply orb_true_iff.
    destruct H; [left; lia | right; lia].
Qed.

Lemma rounding_answer (targetHeight : Z) (serve : bool) :
  targetHeight <> 0 -> targetHeight <= latestAvailableHeight c ->
  GetSnapshotHeight c targetHeight serve =
    match rem64 targetHeight (interval c) with
    | Panics p => Panics p
    | Returns r => Returns (Int64.sub targetHeight r)
    end.
Proof.
  intros H0 Hle. unfold GetSnapshotHeight.
  replace ((targetHeight =? 0) || (latestAvailableHeight c <? targetHeight))
    with false; [reflexivity|].
  symmetry. apply orb_false_iff. split; lia.
Qed.

End SnapshotHeight.

(** ** Construction *)

Section Construction.

Variable X : Externals.
Variables (id : Z) (rest : string).
Variable response : PoolResponse.
Variable config : TendermintSSyncConfig.
Variables startHeight startPart currentHeight chunkIndex : Z.

Hypothesis pool_fetched : GetPool X rest id = inr response.
Hypothesis config_decoded : UnmarshalConfig X (Config (Data (Pool response))) = inr config.
Hypothesis start_decoded :
  ParseSnapshotFromKey X (StartKey (Data (Pool response))) = inr (startHeight, startPart).
Hypothesis current_decoded :
  ParseSnapshotFromKey X (CurrentKey (Data (Pool response))) = inr (currentHeight, chunkIndex).

(** The test the constructor makes on the summary is the one
    [summary_complete] spells out. *)
Lemma summary_test (summary : string) (ci : Z) :
  let fields := GoStrings.Split summary "/"%char in
  (if (List.length fields =? 4)%nat then
     match GoStrings.ParseInt (nth 3 fields EmptyString) with
     | inr totalChunks => totalChunks =? Int64.add ci 1
     | inl _ => false
     end
   else false) = true <-> summary_complete summary ci.
Proof.
  intros fields. unfold summary_complete. fold fields.
  destruct fields as [|f0 [|f1 [|f2 [|f3 [|f4 more]]]]]; simpl;
    try (split; [discriminate | intros (?&?&?&?&E&_); discriminate]).
  destruct (GoStrings.ParseInt f3) as [e|total] eqn:P.
  - split; [discriminate|].
    intros (?&?&?&g3&E&Q). injection E as -> -> -> ->. congruence.
  - split.
    + intros T. apply Z.eqb_eq in T. subst total. now exists f0, f1, f2, f3.
    + intros (?&?&?&g3&E&Q). injection E as -> -> -> ->.
      rewrite Q in P. injection P as <-. apply Z.eqb_refl.
Qed.

(** With a pool of the expected runtime whose config and keys decode, the
    constructor returns a collector, with these fields. *)
Lemma NewKyveSnapshotCollector_fields :
  Runtime (Data (Pool response)) = RuntimeTendermintSsync X ->
  exists c,
    NewKyveSnapshotCollector X id rest = inr c /\
    poolId c = id /\ chainRest c = rest /\
    earliestAvailableHeight c = startHeight /\
    interval c = Interval config /\
    totalBundles c = TotalBundles (Data (Pool response)) /\
    (summary_complete (CurrentSummary (Data (Pool response))) chunkIndex ->
     latestAvailableHeight c = currentHeight) /\
    (~ summary_complete (CurrentSummary (Data (Pool response))) chunkIndex ->
     latestAvailableHeight c = Int64.sub currentHeight (Interval config)).
Proof.
  intros Hrt. unfold NewKyveSnapshotCollector.
  rewrite pool_fetched. cbn [orelse bind].
  rewrite Hrt, String.eqb_refl. cbn [negb].
  rewrite config_decoded, start_decoded, current_decoded. cbn [orelse bind].
  eexists. split; [reflexivity|]. cbn.
  repeat (split; [reflexivity|]).
  pose proof (summary_test (CurrentSummary (Data (Pool response))) chunkIndex) as T.
  cbv zeta in T.
  destruct (List.length (GoStrings.Split (CurrentSummary (Data (Pool response))) "/") =? 4)%nat.
  - destruct (GoStrings.ParseInt _) as [e|total].
    + split; [intros C; apply T in C; discriminate | reflexivity].
    + destruct (total =? Int64.add chunkIndex 1).
      * split; [reflexivity | intros N; exfalso; apply N, T; reflexivity].
      * split; [intros C; apply T in C; discriminate | reflexivity].
  - split; [intros C; apply T in C; discriminate | reflexivity].
Qed.

(** A pool of another runtime is refused, whatever its config and keys
    decode to. *)
Lemma NewKyveSnapshotCollector_refuses :
  Runtime (Data (Pool response)) <> RuntimeTendermintSsync X ->
  NewKyveSnapshotCollector X id rest =
    inl (InvalidRuntimeError id (RuntimeTendermintSsync X) (Runtime (Data (Pool response)))).
Proof.
  intros Hrt. unfold NewKyveSnapshotCollector.
  rewrite pool_fetched. cbn [orelse bind].
  destruct (String.eqb_spec (Runtime (Data (Pool response))) (RuntimeTendermintSsync X));
    [contradiction | reflexivity].
Qed.

End Construction.

(** ** The properties of [GetSnapshotHeight] *)

(** C1, as stated, fails: a request for exactly the latest available height
    is not a request for the latest.  With latest 4000 and interval 1000 the
    serve role gets 4000, not 3000; with latest 500 and interval 1000 it
    gets 0, not 500. *)
Lemma GetSnapshotHeight_serve_at_latest_counterexample :
  (interval scenario_collector < latestAvailableHeight scenario_collector /\
   GetSnapshotHeight scenario_collector
     (latestAvailableHeight scenario_collector) true
   <> Returns (latestAvailableHeight scenario_collector
               - interval scenario_collector)) /\
  (latestAvailableHeight young_collector <= interval young_collector /\
   GetSnapshotHeight young_collector
     (latestAvailableHeight young_collector) true
   <> Returns (latestAvailableHeight young_collector)).
Proof.
  split; (split; [cbn; lia | vm_compute; discriminate]).
Qed.

(** C1, amended: in the serve role a request for the latest snapshot, that
    is a target of 0 or one above the latest available height, is answered
    with the latest available height minus the interval when the latest
    available height is above the interval (Go's int64 subtraction, exact
    for an interval that is not negative), and with the latest available
    height itself otherwise. *)
Theorem GetSnapshotHeight_serve_latest
    (c : KyveSnapshotCollector) (targetHeight : Z) :
  targetHeight = 0 \/ latestAvailableHeight c < targetHeight ->
  (interval c < latestAvailableHeight c ->
   GetSnapshotHeight c targetHeight true
     = Returns (Int64.sub (latestAvailableHeight c) (interval c)) /\
   (0 <= interval c -> Int64.int64 (latestAvailableHeight c) ->
    Int64.sub (latestAvailableHeight c) (interval c)
      = latestAvailableHeight c - interval c)) /\
  (latestAvailableHeight c <= interval c ->
   GetSnapshotHeight c targetHeight true = Returns (latestAvailableHeight c)).
Proof.
  intros H. rewrite (latest_request_answer c _ true H). cbn [andb].
  split.
  - intros Hlt. split.
    + apply Z.ltb_lt in Hlt. now rewrite Hlt.
    + intros Hi Hl. apply sub_exact.
      unfold Int64.int64, Int64.min_int64, Int64.max_int64 in *. lia.
  - intros Hle. apply Z.ltb_ge in Hle. now rewrite Hle.
Qed.

Lemma GetSnapshotHeight_serve_latest_witness :
  GetSnapshotHeight scenario_collector 0 true = Returns 3000 /\
  GetSnapshotHeight scenario_collector 4001 true = Returns 3000 /\
  GetSnapshotHeight young_collector 0 true = Returns 500.
Proof.
  split; [|split].
  - destruct (GetSnapshotHeight_serve_latest scenario_collector 0) as [S _];
      [left; reflexivity|].
    destruct S as [S _]; [cbn; lia|]. exact S.
  - destruct (GetSnapshotHeight_serve_latest scenario_collector 4001) as [S _];
      [right; cbn; lia|].
    destruct S as [S _]; [cbn; lia|]. exact S.
  - destruct (GetSnapshotHeight_serve_latest young_collector 0) as [_ S];
      [left; reflexivity|].
    apply S. cbn; lia.
Defined.

(** C4, as stated, fails at the target 0, which is [0 * interval + 0]: it
    is the request for the latest snapshot and is answered with the latest
    available height, 4000 here, not with 0. *)
Lemma GetSnapshotHeight_rounds_down_counterexample :
  0 < interval scenario_collector /\
  0 <= 0 < interval scenario_collector /\
  0 * interval scenario_collector + 0
    <= latestAvailableHeight scenario_collector /\
  GetSnapshotHeight scenario_collector
    (0 * interval scenario_collector + 0) false
  <> Returns (0 * interval scenario_collector).
Proof.
  cbn. repeat split; try lia. vm_compute. discriminate.
Qed.

(** C4, amended: for every interval > 0, every k and every r with
    0 <= r < interval, if [k * interval + r] is positive and at most the
    latest available height then [GetSnapshotHeight (k * interval + r) false]
    returns [k * interval]. *)
Theorem GetSnapshotHeight_rounds_down
    (c : KyveSnapshotCollector) (k r : Z) :
  Int64.int64 (latestAvailableHeight c) ->
  0 < interval c ->
  0 <= r < interval c ->
  0 < k * interval c + r <= latestAvailableHeight c ->
  GetSnapshotHeight c (k * interval c + r) false = Returns (k * interval c).
Proof.
  intros Hl Hi Hr Ht.
  rewrite rounding_answer by lia.
  unfold rem64. destruct (Z.eqb_spec (interval c) 0) as [E|_]; [lia|].
  rewrite rem_of_grid_point by lia.
  unfold Int64.int64, Int64.min_int64, Int64.max_int64 in Hl.
  assert (0 <= k) as Hk.
  { destruct (Z_lt_le_dec k 0) as [Hneg|]; [|assumption].
    assert (k * interval c <= -1 * interval c)
      by (apply Z.mul_le_mono_nonneg_r; lia).
    lia. }
  assert (0 <= k * interval c) by (apply Z.mul_nonneg_nonneg; lia).
  rewrite wrap_small
    by (unfold Int64.int64, Int64.min_int64, Int64.max_int64; lia).
  rewrite sub_exact
    by (unfold Int64.int64, Int64.min_int64, Int64.max_int64; lia).
  f_equal. lia.
Qed.

Lemma GetSnapshotHeight_rounds_down_witness :
  GetSnapshotHeight scenario_collector (3 * 1000 + 999) false
    = Returns (3 * 1000).
Proof.
  apply (GetSnapshotHeight_rounds_down scenario_collector 3 999);
    unfold Int64.int64, Int64.min_int64, Int64.max_int64; cbn; lia.
Defined.

(** C5: outside the serve role a target of 0, or one above the latest
    available height, is answered with the latest available height. *)
Theorem GetSnapshotHeight_latest
    (c : KyveSnapshotCollector) (targetHeight : Z) :
  targetHeight = 0 \/ latestAvailableHeight c < targetHeight ->
  GetSnapshotHeight c targetHeight false = Returns (latestAvailableHeight c).
Proof.
  intros H. now rewrite (latest_request_answer c _ false H).
Qed.

Lemma GetSnapshotHeight_latest_witness :
  GetSnapshotHeight scenario_collector 0 false = Returns 4000 /\
  GetSnapshotHeight scenario_collector 4500 false = Returns 4000.
Proof.
  split.
  - apply (GetSnapshotHeight_latest scenario_collector 0). left. reflexivity.
  - apply (GetSnapshotHeight_latest scenario_collector 4500). right. cbn. lia.
Defined.

(** ** The properties of the constructor *)

Lemma summary_complete_dec (summary : string) (chunkIndex : Z) :
  summary_complete summary chunkIndex \/ ~ summary_complete summary chunkIndex.
Proof.
  pose proof (summary_test summary chunkIndex) as T. cbv zeta in T.
  destruct (if (List.length _ =? 4)%nat then _ else _).
  - left. now apply T.
  - right. intros C. apply T in C. discriminate.
Qed.

(** C2: the constructor sets the latest available height to the current
    height minus the interval, unless the current summary splits on "/" into
    exactly four fields of which the fourth parses as the current key's part
    index plus 1; then it is the current height.  Whatever the summary is,
    the constructor returns a collector and no error. *)
Theorem NewKyveSnapshotCollector_latest
    (X : Externals) (id : Z) (rest : string) (response : PoolResponse)
    (config : TendermintSSyncConfig)
    (startHeight startPart currentHeight chunkIndex : Z) :
  let data := Data (Pool response) in
  GetPool X rest id = inr response ->
  Runtime data = RuntimeTendermintSsync X ->
  UnmarshalConfig X (Config data) = inr config ->
  ParseSnapshotFromKey X (StartKey data) = inr (startHeight, startPart) ->
  ParseSnapshotFromKey X (CurrentKey data) = inr (currentHeight, chunkIndex) ->
  exists c,
    NewKyveSnapshotCollector X id rest = inr c /\
    (summary_complete (CurrentSummary data) chunkIndex ->
     latestAvailableHeight c = currentHeight) /\
    (~ summary_complete (CurrentSummary data) chunkIndex ->
     latestAvailableHeight c = Int64.sub currentHeight (Interval config)) /\
    (Int64.int64 (currentHeight - Interval config) ->
     Int64.sub currentHeight (Interval config)
       = currentHeight - Interval config) /\
    (Int64.int64 (chunkIndex + 1) -> Int64.add chunkIndex 1 = chunkIndex + 1).
Proof.
  intros data Hpool Hrt Hcfg Hstart Hcur.
  destruct (NewKyveSnapshotCollector_fields X id rest response config
              startHeight startPart currentHeight chunkIndex
              Hpool Hcfg Hstart Hcur Hrt)
    as (c & E & _ & _ & _ & _ & _ & Hyes & Hno).
  exists c. repeat split; auto using sub_exact, add_exact.
Qed.

Lemma NewKyveSnapshotCollector_latest_witness :
  (exists c, NewKyveSnapshotCollector (summary_remote complete_pool) 7 "rest"
               = inr c /\ latestAvailableHeight c = 100) /\
  (exists c, NewKyveSnapshotCollector (summary_remote incomplete_pool) 7 "rest"
               = inr c /\ latestAvailableHeight c = 100 - 20).
Proof.
  split.
  - destruct (NewKyveSnapshotCollector_latest (summary_remote complete_pool)
                7 "rest" _ _ 20 0 100 3
                eq_refl eq_refl eq_refl eq_refl eq_refl)
      as (c & E & Hyes & _).
    exists c. split; [exact E|]. apply Hyes.
    exists "100"%string, "1"%string, "3"%string, "4"%string.
    split; reflexivity.
  - destruct (NewKyveSnapshotCollector_latest (summary_remote incomplete_pool)
                7 "rest" _ _ 20 0 100 2
                eq_refl eq_refl eq_refl eq_refl eq_refl)
      as (c & E & _ & Hno & _).
    exists c. split; [exact E|]. rewrite Hno; [reflexivity|].
    intros (f0 & f1 & f2 & f3 & S & P).
    injection S as <- <- <- <-. discriminate P.
Defined.

(** C8: when the fetched pool's runtime is not the snapshot runtime the
    constructor fails with [InvalidRuntimeError] and returns no collector.
    The pool's config and keys are arbitrary here, wrong or undecodable
    ones included: the runtime is checked before any of them is decoded. *)
Theorem NewKyveSnapshotCollector_invalid_runtime
    (X : Externals) (id : Z) (rest : string) (response : PoolResponse) :
  GetPool X rest id = inr response ->
  Runtime (Data (Pool response)) <> RuntimeTendermintSsync X ->
  NewKyveSnapshotCollector X id rest
    = inl (InvalidRuntimeError id (RuntimeTendermintSsync X)
             (Runtime (Data (Pool response)))) /\
  (forall c, NewKyveSnapshotCollector X id rest <> inr c).
Proof.
  intros Hpool Hrt.
  rewrite (NewKyveSnapshotCollector_refuses X id rest response Hpool Hrt).
  split; [reflexivity | discriminate].
Qed.

Lemma NewKyveSnapshotCollector_invalid_runtime_witness :
  UnmarshalConfig bsync_remote (Config bsync_pool) = inl JsonError /\
  NewKyveSnapshotCollector bsync_remote 7 "rest"
    = inl (InvalidRuntimeError 7 "tendermint-ssync" "tendermint-bsync").
Proof.
  split; [reflexivity|].
  apply (NewKyveSnapshotCollector_invalid_runtime bsync_remote 7 "rest"
           {| Pool := {| Data := bsync_pool |} |} eq_refl).
  cbn. discriminate.
Defined.

(** C9, as stated, fails: the constructor compares nothing with the start
    height.  For the young pool, whose only bundle is the first chunk of the
    snapshot at its start height 1000, it returns a collector with earliest
    height 1000 and latest height 0. *)
Lemma NewKyveSnapshotCollector_bounds_counterexample :
  exists c,
    NewKyveSnapshotCollector fresh_remote 7 "rest" = inr c /\
    earliestAvailableHeight c = 1000 /\
    latestAvailableHeight c = 0 /\
    ~ (earliestAvailableHeight c <= latestAvailableHeight c /\
       (interval c | latestAvailableHeight c - earliestAvailableHeight c)).
Proof.
  eexists. split; [vm_compute; reflexivity|]. cbn.
  repeat split. lia.
Qed.

(** C9, amended: when the pool's interval is positive, its current height
    is the start height plus a whole number of intervals, and either the
    current height is above the start height or the summary reports the
    current snapshot complete, the constructed collector has
    earliest <= latest and latest - earliest a multiple of the interval.
    No operation of the collector writes a field, so the bounds stay. *)
Theorem NewKyveSnapshotCollector_bounds
    (X : Externals) (id : Z) (rest : string) (response : PoolResponse)
    (config : TendermintSSyncConfig)
    (startHeight startPart currentHeight chunkIndex : Z) :
  let data := Data (Pool response) in
  GetPool X rest id = inr response ->
  Runtime data = RuntimeTendermintSsync X ->
  UnmarshalConfig X (Config data) = inr config ->
  ParseSnapshotFromKey X (StartKey data) = inr (startHeight, startPart) ->
  ParseSnapshotFromKey X (CurrentKey data) = inr (currentHeight, chunkIndex) ->
  Int64.int64 startHeight -> Int64.int64 currentHeight ->
  0 < Interval config ->
  startHeight <= currentHeight ->
  (Interval config | currentHeight - startHeight) ->
  startHeight < currentHeight
    \/ summary_complete (CurrentSummary data) chunkIndex ->
  exists c,
    NewKyveSnapshotCollector X id rest = inr c /\
    earliestAvailableHeight c <= latestAvailableHeight c /\
    (interval c | latestAvailableHeight c - earliestAvailableHeight c).
Proof.
  intros data Hpool Hrt Hcfg Hstart Hcur Rs Rc Hi Hle [q Hq] Hsome.
  destruct (NewKyveSnapshotCollector_fields X id rest response config
              startHeight startPart currentHeight chunkIndex
              Hpool Hcfg Hstart Hcur Hrt)
    as (c & E & _ & _ & He & Hint & _ & Hyes & Hno).
  exists c. split; [exact E|]. rewrite He, Hint.
  destruct (summary_complete_dec (CurrentSummary data) chunkIndex) as [C|N].
  - rewrite (Hyes C). split; [lia | now exists q].
  - rewrite (Hno N).
    assert (startHeight < currentHeight) as Hlt by tauto.
    assert (1 <= q) as Hq1.
    { destruct (Z_lt_le_dec q 1) as [Hq0|]; [|assumption].
      assert (q * Interval config <= 0 * Interval config)
        by (apply Z.mul_le_mono_nonneg_r; lia).
      lia. }
    assert ((q - 1) * Interval config >= 0)
      by (apply Z.le_ge, Z.mul_nonneg_nonneg; lia).
    unfold Int64.int64, Int64.min_int64, Int64.max_int64 in Rs, Rc.
    rewrite sub_exact
      by (unfold Int64.int64, Int64.min_int64, Int64.max_int64; lia).
    split; [lia | exists (q - 1); lia].
Qed.

Lemma NewKyveSnapshotCollector_bounds_witness :
  exists c,
    NewKyveSnapshotCollector scenario 7 "rest" = inr c /\
    earliestAvailableHeight c <= latestAvailableHeight c /\
    (interval c | latestAvailableHeight c - earliestAvailableHeight c).
Proof.
  apply (NewKyveSnapshotCollector_bounds scenario 7 "rest"
           {| Pool := {| Data := scenario_pool |} |}
           {| Interval := 1000 |} 0 0 5000 2);
    try reflexivity;
    try (unfold Int64.int64, Int64.min_int64, Int64.max_int64; cbn; lia).
  - exists 5. reflexivity.
Defined.

(** C10: the constructor accepts a config whose interval is 0, and on the
    collector it returns every [GetSnapshotHeight] with a target above 0 and
    at most the latest available height stops with the division by zero of
    [targetHeight % 0].  On any collector, [GetSnapshotHeight] returns for
    every int64 target exactly when the interval is not 0. *)
Theorem zero_interval_faults
    (X : Externals) (id : Z) (rest : string) (response : PoolResponse)
    (config : TendermintSSyncConfig)
    (startHeight startPart currentHeight chunkIndex : Z) :
  let data := Data (Pool response) in
  GetPool X rest id = inr response ->
  Runtime data = RuntimeTendermintSsync X ->
  UnmarshalConfig X (Config data) = inr config ->
  Interval config = 0 ->
  ParseSnapshotFromKey X (StartKey data) = inr (startHeight, startPart) ->
  ParseSnapshotFromKey X (CurrentKey data) = inr (currentHeight, chunkIndex) ->
  (exists c,
     NewKyveSnapshotCollector X id rest = inr c /\
     interval c = 0 /\
     forall targetHeight serve,
       0 < targetHeight <= latestAvailableHeight c ->
       GetSnapshotHeight c targetHeight serve = Panics IntegerDivideByZero) /\
  (forall c : KyveSnapshotCollector,
     Int64.int64 (latestAvailableHeight c) ->
     (forall targetHeight serve,
        Int64.int64 targetHeight ->
        exists h, GetSnapshotHeight c targetHeight serve = Returns h)
     <-> interval c <> 0).
Proof.
  intros data Hpool Hrt Hcfg Hzero Hstart Hcur. split.
  - destruct (NewKyveSnapshotCollector_fields X id rest response config
                startHeight startPart currentHeight chunkIndex
                Hpool Hcfg Hstart Hcur Hrt)
      as (c & E & _ & _ & _ & Hint & _).
    exists c. split; [exact E|]. rewrite Hzero in Hint. split; [exact Hint|].
    intros t serve Ht. rewrite rounding_answer by lia.
    rewrite Hint. reflexivity.
  - intros c Rl. split.
    + intros Htotal Hint.
      set (t := if latestAvailableHeight c =? 0 then -1
                else latestAvailableHeight c).
      assert (Int64.int64 t /\ t <> 0 /\ t <= latestAvailableHeight c)
        as (Rt & Ht0 & Htl).
      { unfold t. unfold Int64.int64, Int64.min_int64, Int64.max_int64 in *.
        destruct (Z.eqb_spec (latestAvailableHeight c) 0); lia. }
      destruct (Htotal t false Rt) as [h Hh].
      rewrite rounding_answer in Hh by assumption.
      rewrite Hint in Hh. discriminate Hh.
    + intros Hint t serve _. unfold GetSnapshotHeight, rem64.
      destruct (Z.eqb_spec (interval c) 0) as [|_]; [contradiction|].
      destruct (_ || _); [destruct (_ && _)|]; eexists; reflexivity.
Qed.

Lemma zero_interval_faults_witness :
  exists c,
    NewKyveSnapshotCollector zero_interval_remote 7 "rest" = inr c /\
    interval c = 0 /\
    forall targetHeight serve,
      0 < targetHeight <= latestAvailableHeight c ->
      GetSnapshotHeight c targetHeight serve = Panics IntegerDivideByZero.
Proof.
  exact (proj1 (zero_interval_faults zero_interval_remote 7 "rest"
                  {| Pool := {| Data := zero_interval_pool |} |}
                  {| Interval := 0 |} 0 0 5000 2
                  eq_refl eq_refl eq_refl eq_refl eq_refl eq_refl)).
Defined.

(** ** Lists read at an int64 index *)

Lemma lookupZ_of_nat {A : Type} (l : list A) (n : nat) :
  lookupZ l (Z.of_nat n) = nth_error l n.
Proof.
  unfold lookupZ. destruct (Z.ltb_spec (Z.of_nat n) 0); [lia|].
  now rewrite Nat2Z.id.
Qed.

Lemma lookupZ_Some_range {A : Type} (l : list A) (i : Z) (a : A) :
  lookupZ l i = Some a -> 0 <= i < Z.of_nat (List.length l).
Proof.
  unfold lookupZ. destruct (Z.ltb_spec i 0); [discriminate|].
  intros E. assert (Z.to_nat i < List.length l)%nat
    by (apply nth_error_Some; congruence).
  lia.
Qed.

Lemma lookupZ_in_range {A : Type} (l : list A) (i : Z) :
  0 <= i < Z.of_nat (List.length l) -> exists a, lookupZ l i = Some a.
Proof.
  intros Hi. unfold lookupZ. destruct (Z.ltb_spec i 0); [lia|].
  destruct (nth_error l (Z.to_nat i)) eqn:E; [eauto|].
  apply nth_error_None in E. lia.
Qed.

Lemma lookupZ_In {A : Type} (l : list A) (a : A) :
  In a l <-> exists i, lookupZ l i = Some a.
Proof.
  split.
  - intros H. apply In_nth_error in H as [n Hn].
    exists (Z.of_nat n). now rewrite lookupZ_of_nat.
  - intros [i Hi]. unfold lookupZ in Hi.
    destruct (i <? 0); [discriminate|]. eapply nth_error_In, Hi.
Qed.

(** ** Sequences of keys *)

Lemma nondecreasing_tail (h : Z) (rest : list Z) :
  nondecreasing (h :: rest) = true -> nondecreasing rest = true.
Proof.
  destruct rest as [|h' rest']; [reflexivity|].
  cbn [nondecreasing]. intros H. now apply andb_true_iff in H.
Qed.

Lemma nondecreasing_head (rest : list Z) :
  forall h, nondecreasing (h :: rest) = true ->
  forall n b, nth_error (h :: rest) n = Some b -> h <= b.
Proof.
  induction rest as [|h' rest' IH]; intros h Hs n b Hn.
  - destruct n as [|[|n]]; cbn in Hn; try discriminate.
    injection Hn as <-. lia.
  - destruct n as [|n]; cbn in Hn.
    + injection Hn as <-. lia.
    + cbn [nondecreasing] in Hs. apply andb_true_iff in Hs as [Hle Hs].
      apply Z.leb_le in Hle. specialize (IH h' Hs n b Hn). lia.
Qed.

Lemma nondecreasing_nth (heights : list Z) :
  nondecreasing heights = true ->
  forall m n a b, (m <= n)%nat ->
    nth_error heights m = Some a -> nth_error heights n = Some b -> a <= b.
Proof.
  induction heights as [|h rest IH]; intros Hs m n a b Hmn Hm Hn.
  - destruct m; discriminate.
  - destruct m as [|m].
    + cbn in Hm. injection Hm as <-. eapply nondecreasing_head; eauto.
    + destruct n as [|n]; [lia|]. cbn in Hm, Hn.
      apply (IH (nondecreasing_tail _ _ Hs) m n); auto. lia.
Qed.

Lemma parts_numbered_after_nth (keys : list (Z * Z)) :
  forall prev, parts_numbered_after prev keys = true ->
  forall n h p, nth_error keys n = Some (h, p) ->
    match match n with O => prev | S n' => nth_error keys n' end with
    | Some (h', p') => if h' =? h then p = p' + 1 else p = 0
    | None => p = 0
    end.
Proof.
  induction keys as [|[h0 p0] rest IH]; intros prev Hp n h p Hn.
  - destruct n; discriminate.
  - cbn [parts_numbered_after] in Hp. apply andb_true_iff in Hp as [Hhere Hrest].
    destruct n as [|n]; cbn in Hn.
    + injection Hn as <- <-.
      destruct prev as [[h' p']|]; [destruct (h' =? h0)|]; lia.
    + specialize (IH _ Hrest n h p Hn). destruct n; exact IH.
Qed.

Section KeySequence.

Variable keys : list (Z * Z).

Lemma heights_monotone :
  nondecreasing (map fst keys) = true ->
  forall i j ki kj, i <= j ->
    lookupZ keys i = Some ki -> lookupZ keys j = Some kj ->
    fst ki <= fst kj.
Proof.
  intros Hs i j ki kj Hij Hi Hj.
  pose proof (lookupZ_Some_range _ _ _ Hi).
  pose proof (lookupZ_Some_range _ _ _ Hj).
  unfold lookupZ in Hi, Hj.
  destruct (Z.ltb_spec i 0); [lia|]. destruct (Z.ltb_spec j 0); [lia|].
  apply (nondecreasing_nth _ Hs (Z.to_nat i) (Z.to_nat j)); [lia| |].
  - rewrite nth_error_map, Hi. reflexivity.
  - rewrite nth_error_map, Hj. reflexivity.
Qed.

(** Walking back by the part index from any bundle of a height reaches
    the first bundle of the run it is in. *)
Lemma run_start :
  parts_numbered keys = true ->
  forall (m : nat) h p,
    lookupZ keys (Z.of_nat m) = Some (h, p) ->
    0 <= p <= Z.of_nat m /\
    lookupZ keys (Z.of_nat m - p) = Some (h, 0) /\
    (Z.of_nat m - p = 0 \/
     exists key, lookupZ keys (Z.of_nat m - p - 1) = Some key /\
                 fst key <> h).
Proof.
  intros Hp. induction m as [|m IH]; intros h p Hm.
  - rewrite lookupZ_of_nat in Hm.
    pose proof (parts_numbered_after_nth keys None Hp 0 h p Hm) as Q.
    cbn in Q. subst p. rewrite Z.sub_0_r, lookupZ_of_nat.
    repeat split; auto; lia.
  - rewrite lookupZ_of_nat in Hm.
    pose proof (parts_numbered_after_nth keys None Hp (S m) h p Hm) as Q.
    cbn beta iota in Q.
    destruct (nth_error keys m) as [[h' p']|] eqn:Em.
    + destruct (Z.eqb_spec h' h) as [->|Hne].
      * subst p. rewrite <- lookupZ_of_nat in Em.
        destruct (IH h p' Em) as (Hr & Hfirst & Hbefore).
        replace (Z.of_nat (S m) - (p' + 1)) with (Z.of_nat m - p') by lia.
        repeat split; auto; lia.
      * subst p. rewrite Z.sub_0_r, lookupZ_of_nat.
        repeat split; auto; try lia.
        right. exists (h', p').
        replace (Z.of_nat (S m) - 1) with (Z.of_nat m) by lia.
        rewrite lookupZ_of_nat. split; [exact Em | exact Hne].
    + apply nth_error_None in Em.
      assert (S m < List.length keys)%nat
        by (apply nth_error_Some; congruence).
      lia.
Qed.

Lemma walk_back_finds_first :
  nondecreasing (map fst keys) = true ->
  parts_numbered keys = true ->
  Z.of_nat (List.length keys) <= 2 ^ 62 ->
  forall i h p,
    lookupZ keys i = Some (h, p) ->
    first_bundle_of keys h (Int64.sub i p).
Proof.
  intros Hs Hp Hn i h p Hi.
  pose proof (lookupZ_Some_range _ _ _ Hi) as Ri.
  rewrite <- (Z2Nat.id i) in Hi by lia.
  destruct (run_start Hp _ _ _ Hi) as (Rp & Hfirst & Hbefore).
  rewrite Z2Nat.id in Rp, Hfirst, Hbefore by lia.
  rewrite sub_exact
    by (unfold Int64.int64, Int64.min_int64, Int64.max_int64; lia).
  split; [exact Hfirst|].
  destruct Hbefore as [Hz|(key & Hk & Hne)]; [now left | right].
  exists key. split; [exact Hk|].
  pose proof (heights_monotone Hs (i - p - 1) (i - p) key (h, 0)
                ltac:(lia) Hk Hfirst) as Hle.
  cbn [fst] in Hle. lia.
Qed.

End KeySequence.

(** ** The bundle search *)

Lemma mid_between (low high : Z) :
  0 <= low <= high -> high < 2 ^ 62 ->
  let mid := Int64.quot (Int64.add low high) 2 in
  low <= mid <= high /\
  Int64.add mid 1 = mid + 1 /\ Int64.sub mid 1 = mid - 1.
Proof.
  intros Hl Hh mid.
  assert (mid = (low + high) / 2) as ->.
  { unfold mid, Int64.quot.
    rewrite add_exact
      by (unfold Int64.int64, Int64.min_int64, Int64.max_int64; lia).
    rewrite Z.quot_div_nonneg by lia.
    apply wrap_small.
    unfold Int64.int64, Int64.min_int64, Int64.max_int64.
    pose proof (Z.div_pos (low + high) 2 ltac:(lia) ltac:(lia)).
    pose proof (Z.div_le_upper_bound (low + high) 2 (2 ^ 62)
                  ltac:(lia) ltac:(lia)).
    lia. }
  assert (low <= (low + high) / 2)
    by (apply Z.div_le_lower_bound; lia).
  assert ((low + high) / 2 <= high)
    by (apply Z.div_le_upper_bound; lia).
  repeat split; try lia.
  - apply add_exact.
    unfold Int64.int64, Int64.min_int64, Int64.max_int64. lia.
  - apply sub_exact.
    unfold Int64.int64, Int64.min_int64, Int64.max_int64. lia.
Qed.

Section Search.

Variable X : Externals.
Variable c : KyveSnapshotCollector.
Variable keys : list (Z * Z).
Variable height : Z.

Variable n : Z.
Hypothesis count : n = Z.of_nat (List.length keys).

Hypothesis holds : pool_holds X c keys.
Hypothesis sorted : nondecreasing (map fst keys) = true.
Hypothesis small : n <= 2 ^ 62.

Lemma probe_in_range (id : Z) :
  0 <= id < n ->
  exists b key,
    GetFinalizedBundleById X (chainRest c) (poolId c) id = inr b /\
    ParseSnapshotFromKey X (ToKey X b) = inr key /\
    lookupZ keys id = Some key.
Proof.
  intros Hid. rewrite count in Hid.
  destruct (lookupZ_in_range keys id Hid) as [key Hk].
  pose proof (proj2 holds id) as H. rewrite Hk in H.
  destruct H as (b & Hb & Hp). now exists b, key.
Qed.

(** The loop ends, within as many iterations as the range has ids, either
    at a bundle of the height or with the range holding none. *)
Lemma binarySearch_spec (fuel : nat) :
  forall low high,
    0 <= low -> high < n -> high - low + 1 <= Z.of_nat fuel ->
    (exists log,
       binarySearch X fuel c height low high
         = Some (log, inl (HeightNotFoundError height)) /\
       forall i key, low <= i <= high ->
         lookupZ keys i = Some key -> fst key <> height)
    \/
    (exists log i p,
       low <= i <= high /\ lookupZ keys i = Some (height, p) /\
       binarySearch X fuel c height low high
         = Some (log, inr (Int64.sub i p))).
Proof.
  induction fuel as [|fuel IH]; intros low high Hlow Hhigh Hfuel.
  - left. exists []. cbn [binarySearch].
    destruct (Z.ltb_spec high low); [|lia].
    split; [reflexivity | intros; lia].
  - cbn [binarySearch]. destruct (Z.ltb_spec high low) as [Hempty|Hrange].
    { left. exists []. split; [reflexivity | intros; lia]. }
    destruct (mid_between low high ltac:(lia) ltac:(lia))
      as (Hmid & Hup & Hdown).
    set (mid := Int64.quot (Int64.add low high) 2) in *.
    destruct (probe_in_range mid ltac:(lia)) as (b & [h p] & Hb & Hp & Hk).
    rewrite Hb, Hp, Hup, Hdown.
    destruct (Z.ltb_spec h height) as [Hless|Hge].
    + destruct (IH (mid + 1) high ltac:(lia) ltac:(lia) ltac:(lia))
        as [(log & E & Hnone)|(log & i & q & Hi & Hkey & E)]; rewrite E.
      * left. eexists. split; [reflexivity|].
        intros i key Hi Hkey.
        destruct (Z_le_gt_dec i mid) as [Hle|Hgt].
        -- pose proof (heights_monotone keys sorted i mid key (h, p)
                         Hle Hkey Hk) as M. cbn [fst] in M. lia.
        -- apply (Hnone i key); [lia | exact Hkey].
      * right. exists (Fetch mid :: Sleep :: log), i, q.
        repeat split; auto; lia.
    + destruct (Z.ltb_spec height h) as [Hmore|Hle].
      * destruct (IH low (mid - 1) ltac:(lia) ltac:(lia) ltac:(lia))
          as [(log & E & Hnone)|(log & i & q & Hi & Hkey & E)]; rewrite E.
        -- left. eexists. split; [reflexivity|].
           intros i key Hi Hkey.
           destruct (Z_lt_le_dec i mid) as [Hlt|Hge'].
           ++ apply (Hnone i key); [lia | exact Hkey].
           ++ pose proof (heights_monotone keys sorted mid i (h, p) key
                            Hge' Hk Hkey) as M. cbn [fst] in M. lia.
        -- right. exists (Fetch mid :: Sleep :: log), i, q.
           repeat split; auto; lia.
      * right. assert (h = height) as -> by lia.
        exists [Fetch mid], mid, p. repeat split; auto; lia.
Qed.

Hypothesis numbered : parts_numbered keys = true.
Variable fuel : nat.
Hypothesis enough : (List.length keys <= fuel)%nat.

Lemma totalBundles_exact : Int64.sub (totalBundles c) 1 = n - 1.
Proof.
  rewrite (proj1 holds), <- count. apply sub_exact.
  unfold Int64.int64, Int64.min_int64, Int64.max_int64. lia.
Qed.

Lemma search_present :
  In height (map fst keys) ->
  exists log b,
    binarySearch X fuel c height 0 (n - 1) = Some (log, inr b) /\
    first_bundle_of keys height b.
Proof.
  intros Hin. apply in_map_iff in Hin as ([h p] & Hh & Hin).
  cbn [fst] in Hh. subst h.
  apply lookupZ_In in Hin as [j Hj].
  pose proof (lookupZ_Some_range _ _ _ Hj) as Rj.
  destruct (binarySearch_spec fuel 0 (n - 1) ltac:(lia) ltac:(lia)
              ltac:(lia))
    as [(log & E & Hnone)|(log & i & q & Hi & Hkey & E)].
  - exfalso. apply (Hnone j (height, p)); [lia | exact Hj | reflexivity].
  - exists log, (Int64.sub i q). split; [exact E|].
    apply walk_back_finds_first; auto; lia.
Qed.

Lemma search_absent :
  ~ In height (map fst keys) ->
  exists log,
    binarySearch X fuel c height 0 (n - 1)
      = Some (log, inl (HeightNotFoundError height)).
Proof.
  intros Hout.
  destruct (binarySearch_spec fuel 0 (n - 1) ltac:(lia) ltac:(lia)
              ltac:(lia))
    as [(log & E & Hnone)|(log & i & q & Hi & Hkey & E)].
  - now exists log.
  - exfalso. apply Hout. apply in_map_iff. exists (height, q).
    split; [reflexivity|]. apply lookupZ_In. now exists i.
Qed.

Lemma find_present :
  In height (map fst keys) ->
  exists log b,
    FindSnapshotBundleIdForHeight X fuel c height = Some (log, inr b) /\
    first_bundle_of keys height b.
Proof.
  intros Hin. destruct (search_present Hin) as (log & b & E & Hfirst).
  unfold FindSnapshotBundleIdForHeight.
  rewrite totalBundles_exact, E.
  destruct (height =? latestAvailableHeight c); [|now exists ([] ++ log), b].
  assert (0 < n) as Hpos.
  { apply in_map_iff in Hin as (key & _ & Hin).
    destruct keys; [contradiction | cbn in count; lia]. }
  destruct (probe_in_range (n - 1) ltac:(lia)) as (bl & [h p] & Hb & Hp & Hk).
  rewrite Hb, Hp. destruct (Z.eqb_spec h height) as [->|Hne].
  - exists [Fetch (n - 1)], (Int64.sub (n - 1) p). split; [reflexivity|].
    apply walk_back_finds_first; auto; lia.
  - now exists ([Fetch (n - 1)] ++ log), b.
Qed.

Lemma find_absent :
  ~ In height (map fst keys) ->
  keys <> [] \/ height <> latestAvailableHeight c ->
  exists log,
    FindSnapshotBundleIdForHeight X fuel c height
      = Some (log, inl (HeightNotFoundError height)).
Proof.
  intros Hout Hcase. destruct (search_absent Hout) as (log & E).
  unfold FindSnapshotBundleIdForHeight.
  rewrite totalBundles_exact, E.
  destruct (Z.eqb_spec height (latestAvailableHeight c)) as [Hlatest|_];
    [|now exists ([] ++ log)].
  assert (0 < n) as Hpos.
  { destruct Hcase as [Hne|Hne]; [|contradiction].
    destruct keys; [contradiction | cbn in count; lia]. }
  destruct (probe_in_range (n - 1) ltac:(lia)) as (bl & [h p] & Hb & Hp & Hk).
  rewrite Hb, Hp. destruct (Z.eqb_spec h height) as [->|Hne].
  - exfalso. apply Hout. apply in_map_iff. exists (height, p).
    split; [reflexivity|]. apply lookupZ_In. now exists (n - 1).
  - now exists ([Fetch (n - 1)] ++ log).
Qed.

End Search.

(** The synthetic pool holds the keys its bundles end at. *)
Lemma synthetic_pool_holds (runtime : string) (pool : PoolData)
    (config : synthetic_error + TendermintSSyncConfig)
    (bundles : list SyntheticBundle)
    (decode : list byte -> synthetic_error + list (list byte))
    (c : KyveSnapshotCollector) (keys : list (Z * Z)) :
  totalBundles c = Z.of_nat (List.length keys) ->
  map (fun b => decodeSnapshotKey (to_key b)) bundles = map inr keys ->
  pool_holds (synthetic runtime pool config bundles decode) c keys.
Proof.
  intros Hn Hkeys. split; [exact Hn|]. intros id. cbn.
  unfold lookupZ. destruct (id <? 0); [now exists BundleNotFound|].
  pose proof (f_equal (fun l => nth_error l (Z.to_nat id)) Hkeys) as E.
  cbn in E. rewrite !nth_error_map in E.
  destruct (nth_error keys (Z.to_nat id)) as [key|],
           (nth_error bundles (Z.to_nat id)) as [b|]; cbn in E;
    try discriminate.
  - exists b. split; [reflexivity | congruence].
  - now exists BundleNotFound.
Qed.

(** ** The properties of the bundle operations *)

(** C3, as stated, fails.  Non-decreasing heights do not make the part
    index of a bundle its distance from the first bundle of its height:
    where a chunk spans several bundles the search for 1000 probes bundle 1,
    reads part index 0 and answers 1, although bundle 0 is of height 1000
    too.  And in a pool without bundles the search for a height that is the
    collector's latest one asks for bundle -1 and fails with the error of
    that request, not with [HeightNotFoundError]. *)
Lemma FindSnapshotBundleIdForHeight_counterexample :
  (pool_holds split_remote split_collector split_keys /\
   nondecreasing (map fst split_keys) = true /\
   In 1000 (map fst split_keys) /\
   FindSnapshotBundleIdForHeight split_remote 4 split_collector 1000
     = Some ([Fetch 1], inr 1) /\
   ~ first_bundle_of split_keys 1000 1) /\
  (pool_holds empty_remote empty_collector [] /\
   ~ In 0 (map fst (@nil (Z * Z))) /\
   forall fuel,
     FindSnapshotBundleIdForHeight empty_remote fuel empty_collector 0
       = Some ([Fetch (-1)], inl (BundleWithIdError (-1) BundleNotFound))).
Proof.
  split.
  - split; [now apply synthetic_pool_holds|].
    split; [reflexivity|]. split; [cbn; auto|].
    split; [reflexivity|].
    intros [_ [H|(key & Hk & Hlt)]]; [discriminate|].
    cbn in Hk. injection Hk as <-. cbn in Hlt. lia.
  - split; [now apply synthetic_pool_holds|].
    split; [intros []|]. intros fuel. reflexivity.
Qed.

(** C3, amended: for every bundle sequence whose heights are non-decreasing
    in the bundle id and whose part indices count 0, 1, 2, ... along the
    bundles of each height, the search for a height present in the sequence
    returns the first bundle of that height: its key is (h, 0) and the
    bundle before it, if any, is of a smaller height.  For a height absent
    from the sequence it fails with [HeightNotFoundError], provided the
    sequence is not empty or the height is not the collector's latest one.
    The loop needs no more iterations than there are bundles. *)
Theorem FindSnapshotBundleIdForHeight_finds_first
    (X : Externals) (c : KyveSnapshotCollector) (keys : list (Z * Z))
    (fuel : nat) (height : Z) :
  pool_holds X c keys ->
  Z.of_nat (List.length keys) <= 2 ^ 62 ->
  (List.length keys <= fuel)%nat ->
  nondecreasing (map fst keys) = true ->
  parts_numbered keys = true ->
  (In height (map fst keys) ->
   exists log b,
     FindSnapshotBundleIdForHeight X fuel c height = Some (log, inr b) /\
     lookupZ keys b = Some (height, 0) /\
     (b = 0 \/ exists key, lookupZ keys (b - 1) = Some key /\ fst key < height))
  /\
  (~ In height (map fst keys) ->
   keys <> [] \/ height <> latestAvailableHeight c ->
   exists log,
     FindSnapshotBundleIdForHeight X fuel c height
       = Some (log, inl (HeightNotFoundError height))).
Proof.
  intros Hholds Hsmall Hfuel Hsorted Hparts. split.
  - intros Hin.
    destruct (find_present X c keys height _ eq_refl Hholds Hsorted Hsmall Hparts
                fuel Hfuel Hin) as (log & b & E & Hfirst & Hbefore).
    now exists log, b.
  - intros Hout Hcase.
    exact (find_absent X c keys height _ eq_refl Hholds Hsorted Hsmall Hparts
             fuel Hfuel Hout Hcase).
Qed.

Lemma FindSnapshotBundleIdForHeight_finds_first_witness :
  (exists log b,
     FindSnapshotBundleIdForHeight scenario 10 scenario_collector 4000
       = Some (log, inr b) /\
     lookupZ scenario_keys b = Some (4000, 0) /\
     (b = 0 \/ exists key, lookupZ scenario_keys (b - 1) = Some key /\
                           fst key < 4000)) /\
  (exists log,
     FindSnapshotBundleIdForHeight scenario 10 scenario_collector 3500
       = Some (log, inl (HeightNotFoundError 3500))).
Proof.
  assert (pool_holds scenario scenario_collector scenario_keys) as Hholds
    by now apply synthetic_pool_holds.
  split.
  - apply (FindSnapshotBundleIdForHeight_finds_first scenario
             scenario_collector scenario_keys 10 4000 Hholds);
      try reflexivity; cbn; try lia; auto 10.
  - apply (FindSnapshotBundleIdForHeight_finds_first scenario
             scenario_collector scenario_keys 10 3500 Hholds);
      try reflexivity; cbn; lia.
Defined.

(** C6: asked for the collector's latest available height, the search first
    fetches the last bundle, [totalBundles - 1].  If the key of that bundle
    decodes to the asked height with part index [p], the answer is
    [(totalBundles - 1) - p] and that fetch is the only request made,
    whatever the number of iterations allowed to the loop; if it decodes to
    another height, the binary search over [0 .. totalBundles - 1] follows
    and decides the answer. *)
Theorem FindSnapshotBundleIdForHeight_fast_path
    (X : Externals) (fuel : nat) (c : KyveSnapshotCollector) (height : Z)
    (b : FinalizedBundle X) (h p : Z) :
  let last := Int64.sub (totalBundles c) 1 in
  height = latestAvailableHeight c ->
  GetFinalizedBundleById X (chainRest c) (poolId c) last = inr b ->
  ParseSnapshotFromKey X (ToKey X b) = inr (h, p) ->
  (h = height ->
   FindSnapshotBundleIdForHeight X fuel c height
     = Some ([Fetch last], inr (Int64.sub last p))) /\
  (h <> height ->
   FindSnapshotBundleIdForHeight X fuel c height
     = match binarySearch X fuel c height 0 last with
       | Some (log, r) => Some (Fetch last :: log, r)
       | None => None
       end) /\
  (Int64.int64 (totalBundles c - 1) -> Int64.int64 (totalBundles c - 1 - p) ->
   last = totalBundles c - 1 /\ Int64.sub last p = totalBundles c - 1 - p).
Proof.
  intros last Hlatest Hb Hp. unfold FindSnapshotBundleIdForHeight.
  fold last. rewrite Hlatest, Z.eqb_refl, <- Hlatest, Hb, Hp.
  split; [|split].
  - intros ->. now rewrite Z.eqb_refl.
  - intros Hne. destruct (Z.eqb_spec h height); [contradiction|].
    destruct (binarySearch X fuel c height 0 last) as [[log r]|]; reflexivity.
  - intros R1 R2. unfold last. rewrite (sub_exact _ _ R1).
    split; [reflexivity | now apply sub_exact].
Qed.

Lemma FindSnapshotBundleIdForHeight_fast_path_witness :
  FindSnapshotBundleIdForHeight scenario 0 scenario_collector 4000
    = Some ([Fetch 9], inr 6) /\
  FindSnapshotBundleIdForHeight scenario 10 stale_collector 3000
    = Some ([Fetch 9; Fetch 4], inr 4).
Proof.
  split.
  - apply (FindSnapshotBundleIdForHeight_fast_path scenario 0
             scenario_collector 4000
             {| to_key := "4000/3"; payload := [] |} 4000 3
             eq_refl eq_refl eq_refl).
    reflexivity.
  - destruct (FindSnapshotBundleIdForHeight_fast_path scenario 10
                stale_collector 3000
                {| to_key := "4000/3"; payload := [] |} 4000 3
                eq_refl eq_refl eq_refl) as (_ & Hslow & _).
    rewrite Hslow; [reflexivity | discriminate].
Defined.

(** C7: when the payload of the fetched bundle decodes to a sequence that
    does not have exactly one data item, [GetSnapshotFromBundleId] and
    [DownloadChunkFromBundleId] both fail with [MalformedBundleError]; when
    it has exactly one, the first returns that item and the second the
    chunk of that item. *)
Theorem bundle_of_one_item
    (X : Externals) (c : KyveSnapshotCollector) (bundleId : Z)
    (finalized : FinalizedBundle X) (data : list byte)
    (bundle : list (SnapshotDataItem X)) :
  GetFinalizedBundleById X (chainRest c) (poolId c) bundleId = inr finalized ->
  GetDataFromFinalizedBundle X finalized = inr data ->
  UnmarshalBundle X data = inr bundle ->
  (List.length bundle <> 1%nat ->
   GetSnapshotFromBundleId X c bundleId = inl MalformedBundleError /\
   DownloadChunkFromBundleId X c bundleId = inl MalformedBundleError) /\
  (forall item, bundle = [item] ->
   GetSnapshotFromBundleId X c bundleId = inr item /\
   DownloadChunkFromBundleId X c bundleId = inr (Chunk X item)).
Proof.
  intros Hfetch Hdata Hdecode.
  unfold GetSnapshotFromBundleId, DownloadChunkFromBundleId.
  rewrite Hfetch. cbn [orelse bind]. rewrite Hdata. cbn [orelse bind].
  rewrite Hdecode. cbn [orelse bind]. split.
  - intros Hlen. destruct bundle as [|item [|item' more]];
      [split; reflexivity | cbn in Hlen; contradiction | split; reflexivity].
  - intros item ->. split; reflexivity.
Qed.

Lemma bundle_of_one_item_witness :
  (GetSnapshotFromBundleId one_item_remote scenario_collector 0
     = inr [x01; x02] /\
   DownloadChunkFromBundleId one_item_remote scenario_collector 0
     = inr [x01; x02]) /\
  (GetSnapshotFromBundleId item_per_byte_remote scenario_collector 0
     = inl MalformedBundleError /\
   DownloadChunkFromBundleId item_per_byte_remote scenario_collector 0
     = inl MalformedBundleError).
Proof.
  split.
  - apply (bundle_of_one_item one_item_remote scenario_collector 0
             {| to_key := "1000/0"; payload := [x01; x02] |} [x01; x02]
             [[x01; x02]] eq_refl eq_refl eq_refl).
    reflexivity.
  - apply (bundle_of_one_item item_per_byte_remote scenario_collector 0
             {| to_key := "1000/0"; payload := [x01; x02] |} [x01; x02]
             [[x01]; [x02]] eq_refl eq_refl eq_refl).
    cbn. discriminate.
Defined.

(** ** More on resolving a target height *)

(** Go's remainder lies between 0 and the dividend, and within the
    divisor. *)
Lemma rem_toward_zero (t i : Z) :
  i <> 0 ->
  Z.abs (Z.rem t i) <= Z.abs t /\
  Z.abs (Z.rem t i) < Z.abs i /\
  (0 <= t -> 0 <= Z.rem t i) /\
  (t <= 0 -> Z.rem t i <= 0).
Proof.
  intros Hi. split; [|split; [|split]].
  - rewrite <- Z.rem_abs by assumption. apply Z.rem_le; lia.
  - now apply Z.rem_bound_abs.
  - intros. now apply Z.rem_nonneg.
  - intros. now apply Z.rem_nonpos.
Qed.

(** The value of the rounding branch, without the wrap-arounds. *)
Lemma rounding_value (c : KyveSnapshotCollector) (targetHeight : Z)
    (serve : bool) :
  Int64.int64 targetHeight -> interval c <> 0 ->
  targetHeight <> 0 -> targetHeight <= latestAvailableHeight c ->
  GetSnapshotHeight c targetHeight serve
    = Returns (targetHeight - Z.rem targetHeight (interval c)).
Proof.
  intros Rt Hi H0 Hle. rewrite rounding_answer by assumption.
  unfold rem64. destruct (Z.eqb_spec (interval c) 0) as [|_]; [contradiction|].
  destruct (rem_toward_zero targetHeight (interval c) Hi)
    as (Habs & _ & Hpos & Hneg).
  unfold Int64.int64, Int64.min_int64, Int64.max_int64 in Rt.
  rewrite wrap_small
    by (unfold Int64.int64, Int64.min_int64, Int64.max_int64; lia).
  rewrite sub_exact
    by (unfold Int64.int64, Int64.min_int64, Int64.max_int64; lia).
  reflexivity.
Qed.

(** X1: a target that is not 0 and not above the latest available height
    is rounded towards zero to a multiple of the interval, in either role
    and for an interval of either sign: the answer is
    [interval * (target / interval)] with Go's truncating division, no
    farther from 0 than the target and less than one interval away from
    it.  A negative target is therefore rounded up. *)
Theorem GetSnapshotHeight_truncates
    (c : KyveSnapshotCollector) (targetHeight : Z) (serve : bool) :
  Int64.int64 targetHeight -> interval c <> 0 ->
  targetHeight <> 0 -> targetHeight <= latestAvailableHeight c ->
  let h := interval c * (targetHeight ÷ interval c) in
  GetSnapshotHeight c targetHeight serve = Returns h /\
  Z.abs h <= Z.abs targetHeight /\
  Z.abs (targetHeight - h) < Z.abs (interval c) /\
  (0 < targetHeight -> 0 <= h <= targetHeight) /\
  (targetHeight < 0 -> targetHeight <= h <= 0).
Proof.
  intros Rt Hi H0 Hle h.
  rewrite rounding_value by assumption.
  pose proof (Z.quot_rem' targetHeight (interval c)) as Q. fold h in Q.
  destruct (rem_toward_zero targetHeight (interval c) Hi)
    as (Habs & Hlt & Hpos & Hneg).
  replace (targetHeight - Z.rem targetHeight (interval c)) with h by lia.
  replace (targetHeight - h) with (Z.rem targetHeight (interval c)) by lia.
  repeat split; try lia.
Qed.

Lemma GetSnapshotHeight_truncates_witness :
  GetSnapshotHeight scenario_collector 3999 true = Returns 3000 /\
  GetSnapshotHeight scenario_collector (-1500) false = Returns (-1000).
Proof.
  split.
  - apply (GetSnapshotHeight_truncates scenario_collector 3999 true);
      unfold Int64.int64, Int64.min_int64, Int64.max_int64; cbn; lia.
  - apply (GetSnapshotHeight_truncates scenario_collector (-1500) false);
      unfold Int64.int64, Int64.min_int64, Int64.max_int64; cbn; lia.
Defined.

(** X2: with a positive interval and a latest available height that is not
    negative, [GetSnapshotHeight] returns for every int64 target and either
    role, never a height above the latest available one, and never a
    negative height for a target that is not negative. *)
Theorem GetSnapshotHeight_within_bounds
    (c : KyveSnapshotCollector) (targetHeight : Z) (serve : bool) :
  Int64.int64 (latestAvailableHeight c) -> Int64.int64 targetHeight ->
  0 < interval c -> 0 <= latestAvailableHeight c ->
  exists h,
    GetSnapshotHeight c targetHeight serve = Returns h /\
    h <= latestAvailableHeight c /\
    (0 <= targetHeight -> 0 <= h).
Proof.
  intros Rl Rt Hi Hl.
  destruct (Z.eq_dec targetHeight 0) as [H0|H0];
    [|destruct (Z_lt_le_dec (latestAvailableHeight c) targetHeight)
        as [Habove|Hle]].
  1,2: rewrite latest_request_answer by auto;
    destruct serve; cbn [andb];
    [destruct (Z.ltb_spec (interval c) (latestAvailableHeight c))|];
    eexists; (split; [reflexivity|]);
    unfold Int64.int64, Int64.min_int64, Int64.max_int64 in *;
    try rewrite sub_exact
      by (unfold Int64.int64, Int64.min_int64, Int64.max_int64; lia);
    lia.
  rewrite rounding_value by (auto; lia).
  destruct (rem_toward_zero targetHeight (interval c) ltac:(lia))
    as (Habs & _ & Hpos & Hneg).
  eexists. split; [reflexivity|]. lia.
Qed.

Lemma GetSnapshotHeight_within_bounds_witness :
  exists h,
    GetSnapshotHeight scenario_collector 9000 true = Returns h /\
    h <= 4000 /\ (0 <= 9000 -> 0 <= h).
Proof.
  apply (GetSnapshotHeight_within_bounds scenario_collector 9000 true);
    unfold Int64.int64, Int64.min_int64, Int64.max_int64; cbn; lia.
Defined.

(** A multiple of the interval is its own rounding. *)
Lemma rounding_fixed_point (c : KyveSnapshotCollector) (h : Z) (serve : bool) :
  Int64.int64 h -> interval c <> 0 -> (interval c | h) ->
  h <> 0 -> h <= latestAvailableHeight c ->
  GetSnapshotHeight c h serve = Returns h.
Proof.
  intros Rh Hi [q Hq] H0 Hle. rewrite rounding_value by assumption.
  f_equal. subst h. rewrite Z.rem_mul by assumption. lia.
Qed.

(** X3: when the latest available height is a multiple of the positive
    interval, a height that [GetSnapshotHeight] returned, if it is not 0,
    resolves to itself in the same role.  (The height 0 does not: as a
    target it asks for the latest snapshot.) *)
Theorem GetSnapshotHeight_settles
    (c : KyveSnapshotCollector) (targetHeight h : Z) (serve : bool) :
  Int64.int64 (latestAvailableHeight c) -> Int64.int64 targetHeight ->
  0 < interval c -> 0 <= latestAvailableHeight c ->
  (interval c | latestAvailableHeight c) ->
  GetSnapshotHeight c targetHeight serve = Returns h ->
  h <> 0 ->
  GetSnapshotHeight c h serve = Returns h.
Proof.
  intros Rl Rt Hi Hl Hdiv E Hh.
  unfold Int64.int64, Int64.min_int64, Int64.max_int64 in Rl, Rt.
  assert (Int64.int64 h /\ (interval c | h) /\ h <= latestAvailableHeight c)
    as (Rh & Hdh & Hle).
  { destruct (Z.eq_dec targetHeight 0) as [H0|H0];
      [|destruct (Z_lt_le_dec (latestAvailableHeight c) targetHeight)
          as [Habove|Hle]].
    1,2: rewrite latest_request_answer in E by auto;
      destruct serve; cbn [andb] in E;
      [destruct (Z.ltb_spec (interval c) (latestAvailableHeight c))|];
      injection E as <-;
      try rewrite sub_exact
        by (unfold Int64.int64, Int64.min_int64, Int64.max_int64; lia);
      unfold Int64.int64, Int64.min_int64, Int64.max_int64;
      (split; [lia|split; [|lia]]);
      auto using Z.divide_sub_r, Z.divide_refl.
    rewrite rounding_value in E
      by (unfold Int64.int64, Int64.min_int64, Int64.max_int64; auto; lia).
    injection E as <-.
    destruct (rem_toward_zero targetHeight (interval c) ltac:(lia))
      as (Habs & _ & Hpos & Hneg).
    unfold Int64.int64, Int64.min_int64, Int64.max_int64.
    split; [lia|split; [|lia]].
    exists (targetHeight ÷ interval c).
    pose proof (Z.quot_rem' targetHeight (interval c)). lia. }
  apply rounding_fixed_point; auto; lia.
Qed.

Lemma GetSnapshotHeight_settles_witness :
  GetSnapshotHeight scenario_collector 3000 true = Returns 3000.
Proof.
  apply (GetSnapshotHeight_settles scenario_collector 0 3000 true);
    try reflexivity;
    try (unfold Int64.int64, Int64.min_int64, Int64.max_int64; cbn; lia).
  exists 4. reflexivity.
Defined.

(** X4: outside the serve role and with a positive interval, a larger
    positive target never resolves to a smaller height. *)
Theorem GetSnapshotHeight_monotone
    (c : KyveSnapshotCollector) (t1 t2 h1 h2 : Z) :
  Int64.int64 t2 -> 0 < interval c -> 0 < t1 <= t2 ->
  GetSnapshotHeight c t1 false = Returns h1 ->
  GetSnapshotHeight c t2 false = Returns h2 ->
  h1 <= h2.
Proof.
  intros R2 Hi Ht E1 E2.
  assert (Int64.int64 t1) as R1
    by (unfold Int64.int64, Int64.min_int64, Int64.max_int64 in *; lia).
  destruct (Z_lt_le_dec (latestAvailableHeight c) t1) as [A1|L1].
  - rewrite latest_request_answer in E1, E2 by (right; lia).
    cbn [andb] in E1, E2. injection E1 as <-. injection E2 as <-. lia.
  - rewrite rounding_value in E1 by (auto; lia). injection E1 as <-.
    destruct (rem_toward_zero t1 (interval c) ltac:(lia))
      as (_ & _ & Hpos1 & _).
    destruct (Z_lt_le_dec (latestAvailableHeight c) t2) as [A2|L2].
    + rewrite latest_request_answer in E2 by (right; lia).
      cbn [andb] in E2. injection E2 as <-. lia.
    + rewrite rounding_value in E2 by (auto; lia). injection E2 as <-.
      pose proof (Z.quot_rem' t1 (interval c)).
      pose proof (Z.quot_rem' t2 (interval c)).
      assert (t1 ÷ interval c <= t2 ÷ interval c)
        by (apply Z.quot_le_mono; lia).
      assert (interval c * (t1 ÷ interval c) <= interval c * (t2 ÷ interval c))
        by (apply Z.mul_le_mono_nonneg_l; lia).
      lia.
Qed.

Lemma GetSnapshotHeight_monotone_witness :
  GetSnapshotHeight scenario_collector 2999 false = Returns 2000 /\
  GetSnapshotHeight scenario_collector 4500 false = Returns 4000 /\
  2000 <= 4000.
Proof.
  split; [reflexivity|]. split; [reflexivity|].
  apply (GetSnapshotHeight_monotone scenario_collector 2999 4500 2000 4000);
    try reflexivity;
    unfold Int64.int64, Int64.min_int64, Int64.max_int64; cbn; lia.
Defined.

(** ** More on the constructor *)

(** X5: the constructor reports the first step that fails and looks no
    further: an unreachable pool is a [PoolFetchError]; for a pool of the
    snapshot runtime, a config that does not decode is a [ConfigParseError]
    whatever the keys are, a start key that does not parse is a
    [StartKeyFormatError] whatever the current key is, and a current key
    that does not parse is a [CurrentKeyFormatError]. *)
Theorem NewKyveSnapshotCollector_first_failure
    (X : Externals) (id : Z) (rest : string) :
  (forall e, GetPool X rest id = inl e ->
     NewKyveSnapshotCollector X id rest = inl (PoolFetchError id e)) /\
  (forall response,
     GetPool X rest id = inr response ->
     Runtime (Data (Pool response)) = RuntimeTendermintSsync X ->
     let data := Data (Pool response) in
     (forall e, UnmarshalConfig X (Config data) = inl e ->
        NewKyveSnapshotCollector X id rest
          = inl (ConfigParseError (Config data) e)) /\
     (forall config e,
        UnmarshalConfig X (Config data) = inr config ->
        ParseSnapshotFromKey X (StartKey data) = inl e ->
        NewKyveSnapshotCollector X id rest
          = inl (StartKeyFormatError (StartKey data) e)) /\
     (forall config start e,
        UnmarshalConfig X (Config data) = inr config ->
        ParseSnapshotFromKey X (StartKey data) = inr start ->
        ParseSnapshotFromKey X (CurrentKey data) = inl e ->
        NewKyveSnapshotCollector X id rest
          = inl (CurrentKeyFormatError (CurrentKey data) e))).
Proof.
  split.
  - intros e He. unfold NewKyveSnapshotCollector. now rewrite He.
  - intros response Hpool Hrt data. subst data.
    unfold NewKyveSnapshotCollector.
    rewrite Hpool. cbn [orelse bind].
    rewrite Hrt, String.eqb_refl. cbn [negb].
    split; [|split].
    + intros e He. now rewrite He.
    + intros config e Hc Hs. rewrite Hc, Hs. reflexivity.
    + intros config [sH sP] e Hc Hs Hk. rewrite Hc, Hs, Hk. reflexivity.
Qed.

Lemma NewKyveSnapshotCollector_first_failure_witness :
  NewKyveSnapshotCollector offline 7 "rest"
    = inl (PoolFetchError 7 "connection refused"%string) /\
  NewKyveSnapshotCollector misconfigured_remote 7 "rest"
    = inl (ConfigParseError (Config scenario_pool) JsonError) /\
  NewKyveSnapshotCollector unstarted_remote 7 "rest"
    = inl (CurrentKeyFormatError "" KeyFormatError).
Proof.
  split; [|split].
  - apply (proj1 (NewKyveSnapshotCollector_first_failure offline 7 "rest")).
    reflexivity.
  - destruct (proj2 (NewKyveSnapshotCollector_first_failure
                       misconfigured_remote 7 "rest")
                {| Pool := {| Data := scenario_pool |} |} eq_refl eq_refl)
      as (Hconfig & _).
    apply Hconfig. reflexivity.
  - destruct (proj2 (NewKyveSnapshotCollector_first_failure
                       unstarted_remote 7 "rest")
                {| Pool := {| Data := unstarted_pool |} |} eq_refl eq_refl)
      as (_ & _ & Hcurrent).
    apply (Hcurrent {| Interval := 1000 |} (1000, 0)); reflexivity.
Defined.

(** What a returned collector tells about the pool it was built from. *)
Lemma NewKyveSnapshotCollector_inversion
    (X : Externals) (id : Z) (rest : string) (c : KyveSnapshotCollector) :
  NewKyveSnapshotCollector X id rest = inr c ->
  exists response config startHeight startPart currentHeight chunkIndex,
    GetPool X rest id = inr response /\
    Runtime (Data (Pool response)) = RuntimeTendermintSsync X /\
    UnmarshalConfig X (Config (Data (Pool response))) = inr config /\
    ParseSnapshotFromKey X (StartKey (Data (Pool response)))
      = inr (startHeight, startPart) /\
    ParseSnapshotFromKey X (CurrentKey (Data (Pool response)))
      = inr (currentHeight, chunkIndex) /\
    poolId c = id /\ chainRest c = rest /\
    earliestAvailableHeight c = startHeight /\
    interval c = Interval config /\
    totalBundles c = TotalBundles (Data (Pool response)) /\
    (latestAvailableHeight c = currentHeight \/
     latestAvailableHeight c = Int64.sub currentHeight (Interval config)).
Proof.
  intros E. unfold NewKyveSnapshotCollector in E.
  destruct (GetPool X rest id) as [e|response] eqn:Hpool; [discriminate|].
  cbn [orelse bind] in E.
  destruct (String.eqb_spec (Runtime (Data (Pool response)))
              (RuntimeTendermintSsync X)) as [Hrt|]; [|discriminate].
  cbn [negb] in E.
  destruct (UnmarshalConfig X _) as [e|config] eqn:Hc; [discriminate|].
  destruct (ParseSnapshotFromKey X (StartKey _)) as [e|[sH sP]] eqn:Hs;
    [discriminate|].
  destruct (ParseSnapshotFromKey X (CurrentKey _)) as [e|[cH ci]] eqn:Hk;
    [discriminate|].
  cbn [orelse bind] in E. injection E as <-.
  exists response, config, sH, sP, cH, ci. cbn.
  repeat (split; [reflexivity || assumption|]).
  destruct (List.length _ =? 4)%nat; [|now right].
  destruct (GoStrings.ParseInt _) as [|total]; [now right|].
  destruct (total =? Int64.add ci 1); [now left | now right].
Qed.

(** X6: a collector is returned only for a reachable pool of the snapshot
    runtime whose config and both keys decode.  It then carries the given
    pool id and endpoint, the height of the start key as its earliest
    height, the config's interval and the pool's bundle count, and its
    latest height is the height of the current key or one interval (in
    int64 arithmetic) before it. *)
Theorem NewKyveSnapshotCollector_only_from_valid_pool
    (X : Externals) (id : Z) (rest : string) (c : KyveSnapshotCollector) :
  NewKyveSnapshotCollector X id rest = inr c ->
  exists response config startHeight startPart currentHeight chunkIndex,
    GetPool X rest id = inr response /\
    Runtime (Data (Pool response)) = RuntimeTendermintSsync X /\
    UnmarshalConfig X (Config (Data (Pool response))) = inr config /\
    ParseSnapshotFromKey X (StartKey (Data (Pool response)))
      = inr (startHeight, startPart) /\
    ParseSnapshotFromKey X (CurrentKey (Data (Pool response)))
      = inr (currentHeight, chunkIndex) /\
    GetEarliestAvailableHeight c = startHeight /\
    GetInterval c = Interval config /\
    totalBundles c = TotalBundles (Data (Pool response)) /\
    poolId c = id /\ chainRest c = rest /\
    (GetLatestAvailableHeight c = currentHeight \/
     GetLatestAvailableHeight c
       = Int64.sub currentHeight (Interval config)).
Proof.
  intros E.
  destruct (NewKyveSnapshotCollector_inversion X id rest c E)
    as (response & config & sH & sP & cH & ci & H).
  exists response, config, sH, sP, cH, ci.
  unfold GetEarliestAvailableHeight, GetInterval, GetLatestAvailableHeight.
  tauto.
Qed.

Lemma NewKyveSnapshotCollector_only_from_valid_pool_witness :
  exists response config startHeight startPart currentHeight chunkIndex,
    GetPool scenario "rest" 7 = inr response /\
    Runtime (Data (Pool response)) = RuntimeTendermintSsync scenario /\
    UnmarshalConfig scenario (Config (Data (Pool response))) = inr config /\
    ParseSnapshotFromKey scenario (StartKey (Data (Pool response)))
      = inr (startHeight, startPart) /\
    ParseSnapshotFromKey scenario (CurrentKey (Data (Pool response)))
      = inr (currentHeight, chunkIndex) /\
    GetEarliestAvailableHeight scenario_collector = startHeight /\
    GetInterval scenario_collector = Interval config /\
    totalBundles scenario_collector = TotalBundles (Data (Pool response)) /\
    poolId scenario_collector = 7 /\ chainRest scenario_collector = "rest"%string /\
    (GetLatestAvailableHeight scenario_collector = currentHeight \/
     GetLatestAvailableHeight scenario_collector
       = Int64.sub currentHeight (Interval config)).
Proof.
  apply (NewKyveSnapshotCollector_only_from_valid_pool scenario 7 "rest"
           scenario_collector).
  reflexivity.
Defined.

(** X7: as long as the remote answers as it did at construction,
    [GetCurrentHeight] succeeds on a constructed collector, and the
    collector's latest available height is that current height or one
    interval (in int64 arithmetic) before it. *)
Theorem GetCurrentHeight_of_new_collector
    (X : Externals) (id : Z) (rest : string) (c : KyveSnapshotCollector) :
  NewKyveSnapshotCollector X id rest = inr c ->
  exists currentHeight,
    GetCurrentHeight X c = inr currentHeight /\
    (latestAvailableHeight c = currentHeight \/
     latestAvailableHeight c = Int64.sub currentHeight (interval c)).
Proof.
  intros E.
  destruct (NewKyveSnapshotCollector_inversion X id rest c E)
    as (response & config & sH & sP & cH & ci & Hpool & _ & _ & _ & Hk
        & Hid & Hrest & _ & Hint & _ & Hlatest).
  exists cH. unfold GetCurrentHeight.
  rewrite Hid, Hrest, Hpool. cbn [orelse bind]. rewrite Hk. cbn [orelse bind].
  rewrite Hint. split; [reflexivity | exact Hlatest].
Qed.

Lemma GetCurrentHeight_of_new_collector_witness :
  exists currentHeight,
    GetCurrentHeight scenario scenario_collector = inr currentHeight /\
    (latestAvailableHeight scenario_collector = currentHeight \/
     latestAvailableHeight scenario_collector
       = Int64.sub currentHeight (interval scenario_collector)).
Proof.
  apply (GetCurrentHeight_of_new_collector scenario 7 "rest"
           scenario_collector).
  reflexivity.
Defined.

(** ** More on the bundle operations *)

(** X8: [DownloadChunkFromBundleId] succeeds exactly when
    [GetSnapshotFromBundleId] does, with the chunk of the item that one
    returns, and fails with the same error otherwise. *)
Theorem DownloadChunkFromBundleId_agrees
    (X : Externals) (c : KyveSnapshotCollector) (bundleId : Z) :
  DownloadChunkFromBundleId X c bundleId
    = match GetSnapshotFromBundleId X c bundleId with
      | inr item => inr (Chunk X item)
      | inl e => inl e
      end.
Proof.
  unfold DownloadChunkFromBundleId, GetSnapshotFromBundleId.
  destruct (GetFinalizedBundleById X _ _ _) as [e|finalized];
    [reflexivity|]. cbn [orelse bind].
  destruct (GetDataFromFinalizedBundle X finalized) as [e|data];
    [reflexivity|]. cbn [orelse bind].
  destruct (UnmarshalBundle X data) as [e|[|item [|item' more]]]; reflexivity.
Qed.

(** X9: the bundle operations report the first step that fails: a bundle
    that cannot be fetched is a [BundleByIdError] with its id, a payload
    that cannot be retrieved a [BundleDataError], a payload that does not
    decode a [BundleParseError]; the item count is looked at only after
    all three. *)
Theorem GetSnapshotFromBundleId_first_failure
    (X : Externals) (c : KyveSnapshotCollector) (bundleId : Z) :
  (forall e,
     GetFinalizedBundleById X (chainRest c) (poolId c) bundleId = inl e ->
     GetSnapshotFromBundleId X c bundleId = inl (BundleByIdError bundleId e)) /\
  (forall finalized,
     GetFinalizedBundleById X (chainRest c) (poolId c) bundleId
       = inr finalized ->
     (forall e, GetDataFromFinalizedBundle X finalized = inl e ->
        GetSnapshotFromBundleId X c bundleId = inl (BundleDataError e)) /\
     (forall data e,
        GetDataFromFinalizedBundle X finalized = inr data ->
        UnmarshalBundle X data = inl e ->
        GetSnapshotFromBundleId X c bundleId = inl (BundleParseError e))).
Proof.
  unfold GetSnapshotFromBundleId. split.
  - intros e He. now rewrite He.
  - intros finalized Hf. rewrite Hf. cbn [orelse bind]. split.
    + intros e He. now rewrite He.
    + intros data e Hd Hu. rewrite Hd. cbn [orelse bind]. now rewrite Hu.
Qed.

Lemma GetSnapshotFromBundleId_first_failure_witness :
  GetSnapshotFromBundleId offline scenario_collector 3
    = inl (BundleByIdError 3 "connection refused"%string) /\
  GetSnapshotFromBundleId scenario scenario_collector 10
    = inl (BundleByIdError 10 BundleNotFound).
Proof.
  split.
  - apply (proj1 (GetSnapshotFromBundleId_first_failure offline
                    scenario_collector 3)).
    reflexivity.
  - apply (proj1 (GetSnapshotFromBundleId_first_failure scenario
                    scenario_collector 10)).
    reflexivity.
Defined.

(** ** More on the bundle search *)

Lemma mid_halves (low high : Z) :
  0 <= low <= high -> high < 2 ^ 62 ->
  let mid := Int64.quot (Int64.add low high) 2 in
  2 * mid <= low + high <= 2 * mid + 1.
Proof.
  intros Hl Hh mid.
  assert (mid = (low + high) / 2) as ->.
  { unfold mid, Int64.quot.
    rewrite add_exact
      by (unfold Int64.int64, Int64.min_int64, Int64.max_int64; lia).
    rewrite Z.quot_div_nonneg by lia.
    apply wrap_small.
    unfold Int64.int64, Int64.min_int64, Int64.max_int64.
    pose proof (Z.div_pos (low + high) 2 ltac:(lia) ltac:(lia)).
    pose proof (Z.div_le_upper_bound (low + high) 2 (2 ^ 62)
                  ltac:(lia) ltac:(lia)).
    lia. }
  pose proof (Z.div_mod (low + high) 2 ltac:(lia)).
  pose proof (Z.mod_pos_bound (low + high) 2 ltac:(lia)).
  lia.
Qed.

Lemma paced_after_sleep (id : Z) (log : list probe) :
  paced log = true -> paced (Fetch id :: Sleep :: log) = true.
Proof. intros H. exact H. Qed.

Section SearchLog.

Variable X : Externals.
Variable c : KyveSnapshotCollector.
Variable height : Z.

(** Whatever the remote answers, the loop over a range of fewer than
    [2 ^ k] ids ends within [k] iterations; it requests ids of the range
    only, none of them twice, and sleeps between two requests. *)
Lemma binarySearch_log (k : nat) :
  forall fuel low high,
    0 <= low -> high < 2 ^ 62 ->
    high - low + 1 < 2 ^ Z.of_nat k -> (k <= fuel)%nat ->
    exists log r,
      binarySearch X fuel c height low high = Some (log, r) /\
      (List.length (fetched log) <= k)%nat /\
      Forall (fun id => low <= id <= high) (fetched log) /\
      NoDup (fetched log) /\
      paced log = true.
Proof.
  induction k as [|k IH]; intros fuel low high Hlow Hhigh Hsize Hfuel.
  - exists [], (inl (HeightNotFoundError height)).
    change (2 ^ Z.of_nat 0) with 1 in Hsize.
    destruct fuel; cbn [binarySearch];
      (destruct (Z.ltb_spec high low); [|lia]);
      repeat split; auto using NoDup_nil.
  - rewrite Nat2Z.inj_succ, Z.pow_succ_r in Hsize by lia.
    destruct fuel as [|fuel]; [lia|]. cbn [binarySearch].
    destruct (Z.ltb_spec high low) as [Hempty|Hrange].
    { exists [], (inl (HeightNotFoundError height)).
      repeat split; auto using NoDup_nil. cbn. lia. }
    destruct (mid_between low high ltac:(lia) ltac:(lia))
      as (Hmid & Hup & Hdown).
    pose proof (mid_halves low high ltac:(lia) ltac:(lia)) as Hhalf.
    cbv zeta in Hhalf.
    set (mid := Int64.quot (Int64.add low high) 2) in *.
    assert (forall r : result (cause X) Z,
              exists log r',
                Some ([Fetch mid], r) = Some (log, r') /\
                (List.length (fetched log) <= S k)%nat /\
                Forall (fun id => low <= id <= high) (fetched log) /\
                NoDup (fetched log) /\ paced log = true) as Hstop.
    { intros r. exists [Fetch mid], r. cbn.
      repeat split; auto using NoDup_nil, NoDup_cons; lia. }
    assert (forall low' high',
              low <= low' -> high' <= high ->
              (mid < low' \/ high' < mid) ->
              high' - low' + 1 < 2 ^ Z.of_nat k ->
              exists log r,
                match binarySearch X fuel c height low' high' with
                | Some (log, r) => Some (Fetch mid :: Sleep :: log, r)
                | None => None
                end = Some (log, r) /\
                (List.length (fetched log) <= S k)%nat /\
                Forall (fun id => low <= id <= high) (fetched log) /\
                NoDup (fetched log) /\ paced log = true) as Hgo.
    { intros low' high' Hl' Hh' Hside Hsize'.
      destruct (IH fuel low' high' ltac:(lia) ltac:(lia) Hsize' ltac:(lia))
        as (log & r & E & Hlen & Hin & Hnd & Hp).
      rewrite E. exists (Fetch mid :: Sleep :: log), r.
      split; [reflexivity|]. cbn [fetched List.length].
      split; [lia|]. split; [|split].
      - constructor; [lia|].
        eapply Forall_impl; [|exact Hin]. cbn. intros; lia.
      - constructor; [|exact Hnd]. intros Hmem.
        rewrite Forall_forall in Hin. specialize (Hin mid Hmem). lia.
      - now apply paced_after_sleep. }
    destruct (GetFinalizedBundleById X _ _ mid) as [e|b]; [apply Hstop|].
    destruct (ParseSnapshotFromKey X (ToKey X b)) as [e|[h p]];
      [apply Hstop|].
    rewrite Hup, Hdown.
    destruct (h <? height); [apply Hgo; lia|].
    destruct (height <? h); [apply Hgo; lia | apply Hstop].
Qed.

(** What decided a result of the loop is its last request. *)
Lemma decided_later (id : Z) (log : list probe) (r : result (cause X) Z) :
  decided_by_last_request X c height log r ->
  decided_by_last_request X c height (Fetch id :: log) r /\
  decided_by_last_request X c height (Fetch id :: Sleep :: log) r.
Proof.
  unfold decided_by_last_request. destruct r as [[]|answer]; auto.
  - intros (before & -> & H). split.
    + now exists (Fetch id :: before).
    + now exists (Fetch id :: Sleep :: before).
  - intros (before & id' & b & -> & H). split.
    + now exists (Fetch id :: before), id', b.
    + now exists (Fetch id :: Sleep :: before), id', b.
  - intros (before & id' & b & p & -> & H). split.
    + now exists (Fetch id :: before), id', b, p.
    + now exists (Fetch id :: Sleep :: before), id', b, p.
Qed.

Lemma binarySearch_decided (fuel : nat) :
  forall low high log r,
    binarySearch X fuel c height low high = Some (log, r) ->
    decided_by_last_request X c height log r.
Proof.
  induction fuel as [|fuel IH]; intros low high log r E;
    cbn [binarySearch] in E;
    (destruct (high <? low); [injection E as <- <-; reflexivity|]);
    [discriminate|].
  set (mid := Int64.quot (Int64.add low high) 2) in *.
  assert (forall low' high',
            match binarySearch X fuel c height low' high' with
            | Some (log, r) => Some (Fetch mid :: Sleep :: log, r)
            | None => None
            end = Some (log, r) ->
            decided_by_last_request X c height log r) as Hrec.
  { intros low' high' E'.
    destruct (binarySearch X fuel c height low' high') as [[log' r']|] eqn:E'';
      [|discriminate].
    injection E' as <- <-. now apply decided_later, (IH low' high'). }
  destruct (GetFinalizedBundleById X _ _ mid) as [e|b] eqn:Hb.
  { injection E as <- <-. now exists []. }
  destruct (ParseSnapshotFromKey X (ToKey X b)) as [e|[h p]] eqn:Hp.
  { injection E as <- <-. now exists [], mid, b. }
  destruct (Z.ltb_spec h height); [now apply Hrec in E|].
  destruct (Z.ltb_spec height h); [now apply Hrec in E|].
  injection E as <- <-. exists [], mid, b, p.
  assert (h = height) as -> by lia. auto.
Qed.

Lemma FindSnapshotBundleIdForHeight_decided (fuel : nat) :
  forall log r,
    FindSnapshotBundleIdForHeight X fuel c height = Some (log, r) ->
    decided_by_last_request X c height log r.
Proof.
  intros log r E. unfold FindSnapshotBundleIdForHeight in E.
  set (last := Int64.sub (totalBundles c) 1) in *.
  destruct (binarySearch X fuel c height 0 last) as [[log' r']|] eqn:Es.
  - pose proof (binarySearch_decided fuel 0 last log' r' Es) as D.
    destruct (height =? latestAvailableHeight c).
    + destruct (GetFinalizedBundleById X _ _ last) as [e|b] eqn:Hb.
      { injection E as <- <-. now exists []. }
      destruct (ParseSnapshotFromKey X (ToKey X b)) as [e|[h p]] eqn:Hp.
      { injection E as <- <-. now exists [], last, b. }
      destruct (Z.eqb_spec h height) as [->|].
      * injection E as <- <-. now exists [], last, b, p.
      * injection E as <- <-. now apply decided_later.
    + injection E as <- <-. exact D.
  - destruct (height =? latestAvailableHeight c); [|discriminate].
    destruct (GetFinalizedBundleById X _ _ last) as [e|b] eqn:Hb.
    { injection E as <- <-. now exists []. }
    destruct (ParseSnapshotFromKey X (ToKey X b)) as [e|[h p]] eqn:Hp.
    { injection E as <- <-. now exists [], last, b. }
    destruct (Z.eqb_spec h height) as [->|]; [|discriminate].
    injection E as <- <-. now exists [], last, b, p.
Qed.

(** The requests of the whole search: at most one for the shortcut, then
    those of the loop. *)
Lemma FindSnapshotBundleIdForHeight_log (k fuel : nat) :
  0 <= totalBundles c <= 2 ^ 62 ->
  totalBundles c < 2 ^ Z.of_nat k -> (k <= fuel)%nat ->
  exists shortcut loop r,
    FindSnapshotBundleIdForHeight X fuel c height
      = Some (shortcut ++ loop, r) /\
    (shortcut = [] \/ shortcut = [Fetch (totalBundles c - 1)]) /\
    (List.length (fetched loop) <= k)%nat /\
    Forall (fun id => 0 <= id < totalBundles c) (fetched loop) /\
    NoDup (fetched loop) /\
    paced loop = true.
Proof.
  intros Hn Hk Hfuel. unfold FindSnapshotBundleIdForHeight.
  rewrite sub_exact
    by (unfold Int64.int64, Int64.min_int64, Int64.max_int64; lia).
  destruct (binarySearch_log k fuel 0 (totalBundles c - 1)
              ltac:(lia) ltac:(lia) ltac:(lia) Hfuel)
    as (loop & r & E & Hlen & Hin & Hnd & Hp).
  rewrite E.
  assert (Forall (fun id => 0 <= id < totalBundles c) (fetched loop)) as Hin'
    by (eapply Forall_impl; [|exact Hin]; cbn; intros; lia).
  assert (forall r' : result (cause X) Z,
            exists shortcut loop0 r0,
              Some ([Fetch (totalBundles c - 1)], r')
                = Some (shortcut ++ loop0, r0) /\
              (shortcut = [] \/ shortcut = [Fetch (totalBundles c - 1)]) /\
              (List.length (fetched loop0) <= k)%nat /\
              Forall (fun id => 0 <= id < totalBundles c) (fetched loop0) /\
              NoDup (fetched loop0) /\ paced loop0 = true) as Hstop.
  { intros r'. exists [Fetch (totalBundles c - 1)], [], r'. cbn.
    repeat split; auto using NoDup_nil. lia. }
  destruct (height =? latestAvailableHeight c).
  - destruct (GetFinalizedBundleById X _ _ _) as [e|b]; [apply Hstop|].
    destruct (ParseSnapshotFromKey X (ToKey X b)) as [e|[h p]];
      [apply Hstop|].
    destruct (h =? height); [apply Hstop|].
    exists [Fetch (totalBundles c - 1)], loop, r. auto 10.
  - exists [], loop, r. auto 10.
Qed.

End SearchLog.

Lemma fetched_app (log log' : list probe) :
  fetched (log ++ log') = fetched log ++ fetched log'.
Proof.
  induction log as [|[id|] log IH]; cbn; [reflexivity | f_equal; exact IH | exact IH].
Qed.

(** X10: an answer of the search always comes from the bundle requested
    last: that bundle's key decodes to the asked height with some part
    index, and the answer is its id minus that part index.  This holds for
    any remote, ordered or not. *)
Theorem FindSnapshotBundleIdForHeight_answer_from_bundle
    (X : Externals) (fuel : nat) (c : KyveSnapshotCollector) (height : Z)
    (log : list probe) (answer : Z) :
  FindSnapshotBundleIdForHeight X fuel c height = Some (log, inr answer) ->
  exists before id b p,
    log = before ++ [Fetch id] /\
    GetFinalizedBundleById X (chainRest c) (poolId c) id = inr b /\
    ParseSnapshotFromKey X (ToKey X b) = inr (height, p) /\
    answer = Int64.sub id p.
Proof.
  intros E. exact (FindSnapshotBundleIdForHeight_decided X c height fuel _ _ E).
Qed.

Lemma FindSnapshotBundleIdForHeight_answer_from_bundle_witness :
  exists before id b p,
    [Fetch 9; Fetch 4] = before ++ [Fetch id] /\
    GetFinalizedBundleById scenario "rest" 7 id = inr b /\
    ParseSnapshotFromKey scenario (ToKey scenario b) = inr (3000, p) /\
    4 = Int64.sub id p.
Proof.
  apply (FindSnapshotBundleIdForHeight_answer_from_bundle scenario 10
           stale_collector 3000 [Fetch 9; Fetch 4] 4).
  reflexivity.
Defined.

(** X11: the search fails in three ways only: with the error of the
    request made last, which is not retried; with the parse error of the
    key of the bundle requested last; or with [HeightNotFoundError] for the
    asked height. *)
Theorem FindSnapshotBundleIdForHeight_failure_kinds
    (X : Externals) (fuel : nat) (c : KyveSnapshotCollector) (height : Z)
    (log : list probe) (err : error (cause X)) :
  FindSnapshotBundleIdForHeight X fuel c height = Some (log, inl err) ->
  (exists before id e,
     err = BundleWithIdError id e /\ log = before ++ [Fetch id] /\
     GetFinalizedBundleById X (chainRest c) (poolId c) id = inl e) \/
  (exists before id b e,
     err = SnapshotKeyFormatError (ToKey X b) e /\
     log = before ++ [Fetch id] /\
     GetFinalizedBundleById X (chainRest c) (poolId c) id = inr b /\
     ParseSnapshotFromKey X (ToKey X b) = inl e) \/
  err = HeightNotFoundError height.
Proof.
  intros E.
  pose proof (FindSnapshotBundleIdForHeight_decided X c height fuel _ _ E) as D.
  unfold decided_by_last_request in D. destruct err; try contradiction.
  - left. destruct D as (before & -> & H). now exists before, bundleId, e.
  - right. left. destruct D as (before & id & b & -> & Hb & -> & Hp).
    now exists before, id, b, e.
  - right. right. now subst.
Qed.

Lemma FindSnapshotBundleIdForHeight_failure_kinds_witness :
  (exists before id e,
     BundleWithIdError 9 "connection refused"%string = BundleWithIdError id e /\
     [Fetch 9] = before ++ [Fetch id] /\
     GetFinalizedBundleById offline "rest" 7 id = inl e) \/
  (exists before id b e,
     BundleWithIdError 9 "connection refused"%string
       = SnapshotKeyFormatError (ToKey offline b) e /\
     [Fetch 9] = before ++ [Fetch id] /\
     GetFinalizedBundleById offline "rest" 7 id = inr b /\
     ParseSnapshotFromKey offline (ToKey offline b) = inl e) \/
  BundleWithIdError 9 "connection refused"%string
    = HeightNotFoundError (cause := cause offline) 4000.
Proof.
  apply (FindSnapshotBundleIdForHeight_failure_kinds offline 10
           scenario_collector 4000 [Fetch 9]).
  reflexivity.
Defined.

(** X12: whatever the remote answers, the search over fewer than [2 ^ k]
    bundles ends within [k] iterations of its loop and makes at most
    [k + 1] requests. *)
Theorem FindSnapshotBundleIdForHeight_terminates
    (X : Externals) (c : KyveSnapshotCollector) (height : Z) (k fuel : nat) :
  0 <= totalBundles c <= 2 ^ 62 ->
  totalBundles c < 2 ^ Z.of_nat k -> (k <= fuel)%nat ->
  exists log r,
    FindSnapshotBundleIdForHeight X fuel c height = Some (log, r) /\
    (List.length (fetched log) <= S k)%nat.
Proof.
  intros Hn Hk Hfuel.
  destruct (FindSnapshotBundleIdForHeight_log X c height k fuel Hn Hk Hfuel)
    as (shortcut & loop & r & E & Hs & Hlen & _).
  exists (shortcut ++ loop), r. split; [exact E|].
  rewrite fetched_app, length_app.
  destruct Hs as [->| ->]; cbn; lia.
Qed.

Lemma FindSnapshotBundleIdForHeight_terminates_witness :
  exists log r,
    FindSnapshotBundleIdForHeight scenario 4 scenario_collector 3500
      = Some (log, r) /\
    (List.length (fetched log) <= 5)%nat.
Proof.
  apply (FindSnapshotBundleIdForHeight_terminates scenario scenario_collector
           3500 4 4); cbn; lia.
Defined.

(** X13: for a collector of at least one bundle, the search requests only
    bundle ids from 0 to [totalBundles - 1], whatever the remote answers. *)
Theorem FindSnapshotBundleIdForHeight_requests_in_range
    (X : Externals) (c : KyveSnapshotCollector) (height : Z) (k fuel : nat) :
  1 <= totalBundles c <= 2 ^ 62 ->
  totalBundles c < 2 ^ Z.of_nat k -> (k <= fuel)%nat ->
  exists log r,
    FindSnapshotBundleIdForHeight X fuel c height = Some (log, r) /\
    Forall (fun id => 0 <= id < totalBundles c) (fetched log).
Proof.
  intros Hn Hk Hfuel.
  destruct (FindSnapshotBundleIdForHeight_log X c height k fuel
              ltac:(lia) Hk Hfuel)
    as (shortcut & loop & r & E & Hs & _ & Hin & _).
  exists (shortcut ++ loop), r. split; [exact E|].
  rewrite fetched_app. apply Forall_app. split; [|exact Hin].
  destruct Hs as [->| ->]; cbn; [constructor|].
  constructor; [lia | constructor].
Qed.

Lemma FindSnapshotBundleIdForHeight_requests_in_range_witness :
  exists log r,
    FindSnapshotBundleIdForHeight scenario 4 scenario_collector 4000
      = Some (log, r) /\
    Forall (fun id => 0 <= id < 10) (fetched log).
Proof.
  apply (FindSnapshotBundleIdForHeight_requests_in_range scenario
           scenario_collector 4000 4 4); cbn; lia.
Defined.

(** X14: the log of the search is the request of the shortcut, if it was
    made, followed by the requests of the loop; the loop requests no bundle
    twice and sleeps between any two of its requests.  (No sleep separates
    the shortcut's request from the loop's first, and the loop may request
    the last bundle again.) *)
Theorem FindSnapshotBundleIdForHeight_loop_paced
    (X : Externals) (c : KyveSnapshotCollector) (height : Z) (k fuel : nat) :
  0 <= totalBundles c <= 2 ^ 62 ->
  totalBundles c < 2 ^ Z.of_nat k -> (k <= fuel)%nat ->
  exists shortcut loop r,
    FindSnapshotBundleIdForHeight X fuel c height
      = Some (shortcut ++ loop, r) /\
    (shortcut = [] \/ shortcut = [Fetch (totalBundles c - 1)]) /\
    NoDup (fetched loop) /\
    paced loop = true.
Proof.
  intros Hn Hk Hfuel.
  destruct (FindSnapshotBundleIdForHeight_log X c height k fuel Hn Hk Hfuel)
    as (shortcut & loop & r & E & Hs & _ & _ & Hnd & Hp).
  now exists shortcut, loop, r.
Qed.

Lemma FindSnapshotBundleIdForHeight_loop_paced_witness :
  exists shortcut loop r,
    FindSnapshotBundleIdForHeight scenario 4 stale_collector 3000
      = Some (shortcut ++ loop, r) /\
    (shortcut = [] \/ shortcut = [Fetch (10 - 1)]) /\
    NoDup (fetched loop) /\
    paced loop = true.
Proof.
  apply (FindSnapshotBundleIdForHeight_loop_paced scenario stale_collector
           3000 4 4); cbn; lia.
Defined.

Lemma last_bundle_id (X : Externals) (c : KyveSnapshotCollector)
    (keys : list (Z * Z)) :
  pool_holds X c keys -> Z.of_nat (List.length keys) <= 2 ^ 62 ->
  Int64.sub (totalBundles c) 1 = Z.of_nat (List.length keys) - 1.
Proof.
  intros [Hn _] Hsmall. rewrite Hn. apply sub_exact.
  unfold Int64.int64, Int64.min_int64, Int64.max_int64. lia.
Qed.

(** The first bundle of a height is the only one. *)
Lemma first_bundle_unique (keys : list (Z * Z)) (h b b' : Z) :
  nondecreasing (map fst keys) = true ->
  first_bundle_of keys h b -> first_bundle_of keys h b' -> b = b'.
Proof.
  intros Hs.
  assert (forall x y, first_bundle_of keys h x -> first_bundle_of keys h y ->
                      ~ x < y) as Hno.
  { intros x y [Hx _] [Hy [Hy0|(key & Hk & Hlt)]] Hxy.
    - pose proof (lookupZ_Some_range _ _ _ Hx). lia.
    - pose proof (heights_monotone keys Hs x (y - 1) (h, 0) key
                    ltac:(lia) Hx Hk) as M.
      cbn [fst] in M. lia. }
  intros Hb Hb'.
  pose proof (Hno b b' Hb Hb'). pose proof (Hno b' b Hb' Hb). lia.
Qed.

(** In a numbered sequence the part [p] of a height is [p] bundles after
    the first bundle of the height. *)
Lemma part_offset (keys : list (Z * Z)) (h b j p : Z) :
  nondecreasing (map fst keys) = true ->
  parts_numbered keys = true ->
  first_bundle_of keys h b ->
  lookupZ keys j = Some (h, p) ->
  j = b + p.
Proof.
  intros Hs Hp Hb Hj.
  pose proof (lookupZ_Some_range _ _ _ Hj) as Rj.
  rewrite <- (Z2Nat.id j) in Hj by lia.
  destruct (run_start keys Hp _ _ _ Hj) as (Rp & Hfirst & Hbefore).
  rewrite Z2Nat.id in Rp, Hfirst, Hbefore by lia.
  assert (first_bundle_of keys h (j - p)) as Hb'.
  { split; [exact Hfirst|].
    destruct Hbefore as [Hz|(key & Hk & Hne)]; [now left | right].
    exists key. split; [exact Hk|].
    pose proof (heights_monotone keys Hs (j - p - 1) (j - p) key (h, 0)
                  ltac:(lia) Hk Hfirst) as Hle.
    cbn [fst] in Hle. lia. }
  pose proof (first_bundle_unique keys h b (j - p) Hs Hb Hb'). lia.
Qed.

(** X15: if the heights do not decrease along the bundle ids, the search
    finds every height the sequence holds, however the parts are numbered:
    it answers [i - p] for a bundle [i] whose key is [(height, p)], and
    never [HeightNotFoundError]. *)
Theorem FindSnapshotBundleIdForHeight_finds_present
    (X : Externals) (c : KyveSnapshotCollector) (keys : list (Z * Z))
    (fuel : nat) (height : Z) :
  pool_holds X c keys ->
  Z.of_nat (List.length keys) <= 2 ^ 62 ->
  (List.length keys <= fuel)%nat ->
  nondecreasing (map fst keys) = true ->
  In height (map fst keys) ->
  exists log i p,
    FindSnapshotBundleIdForHeight X fuel c height
      = Some (log, inr (Int64.sub i p)) /\
    lookupZ keys i = Some (height, p).
Proof.
  intros Hholds Hsmall Hfuel Hs Hin.
  apply in_map_iff in Hin as ([h q] & Hh & Hin). cbn [fst] in Hh. subst h.
  apply lookupZ_In in Hin as [j Hj].
  pose proof (lookupZ_Some_range _ _ _ Hj) as Rj.
  unfold FindSnapshotBundleIdForHeight.
  rewrite (last_bundle_id X c keys Hholds Hsmall).
  set (n := Z.of_nat (List.length keys)) in *.
  destruct (binarySearch_spec X c keys height n eq_refl Hholds Hs Hsmall
              fuel 0 (n - 1) ltac:(lia) ltac:(lia) ltac:(lia))
    as [(log & E & Hnone)|(log & i & p & Hi & Hkey & E)].
  { exfalso. apply (Hnone j (height, q)); [lia | exact Hj | reflexivity]. }
  rewrite E.
  destruct (height =? latestAvailableHeight c);
    [|now exists ([] ++ log), i, p].
  destruct (probe_in_range X c keys n eq_refl Hholds (n - 1) ltac:(lia))
    as (bl & [h p'] & Hb & Hp & Hk).
  rewrite Hb, Hp. destruct (Z.eqb_spec h height) as [->|Hne].
  - now exists [Fetch (n - 1)], (n - 1), p'.
  - now exists ([Fetch (n - 1)] ++ log), i, p.
Qed.

Lemma FindSnapshotBundleIdForHeight_finds_present_witness :
  exists log i p,
    FindSnapshotBundleIdForHeight split_remote 4 split_collector 1000
      = Some (log, inr (Int64.sub i p)) /\
    lookupZ split_keys i = Some (1000, p).
Proof.
  apply (FindSnapshotBundleIdForHeight_finds_present split_remote
           split_collector split_keys 4 1000);
    first [ reflexivity
          | now apply synthetic_pool_holds
          | cbn; lia ].
Defined.

(** X16: in a sequence of non-decreasing heights whose parts are numbered
    from 0 along each height, the answer [b] of the search for a height
    addresses all its parts: the bundle whose key is [(height, p)] is the
    bundle [b + p], so no bundle before [b] is of that height. *)
Theorem FindSnapshotBundleIdForHeight_part_offsets
    (X : Externals) (c : KyveSnapshotCollector) (keys : list (Z * Z))
    (fuel : nat) (height : Z) :
  pool_holds X c keys ->
  Z.of_nat (List.length keys) <= 2 ^ 62 ->
  (List.length keys <= fuel)%nat ->
  nondecreasing (map fst keys) = true ->
  parts_numbered keys = true ->
  In height (map fst keys) ->
  exists log b,
    FindSnapshotBundleIdForHeight X fuel c height = Some (log, inr b) /\
    forall j p, lookupZ keys j = Some (height, p) -> j = b + p /\ b <= j.
Proof.
  intros Hholds Hsmall Hfuel Hs Hp Hin.
  destruct (find_present X c keys height _ eq_refl Hholds Hs Hsmall Hp
              fuel Hfuel Hin) as (log & b & E & Hfirst).
  exists log, b. split; [exact E|]. intros j p Hj.
  pose proof (part_offset keys height b j p Hs Hp Hfirst Hj) as Hoff.
  pose proof (lookupZ_Some_range _ _ _ Hj) as Rj.
  rewrite <- (Z2Nat.id j) in Hj by lia.
  destruct (run_start keys Hp _ _ _ Hj) as (Rp & _). lia.
Qed.

Lemma FindSnapshotBundleIdForHeight_part_offsets_witness :
  exists log b,
    FindSnapshotBundleIdForHeight scenario 10 scenario_collector 4000
      = Some (log, inr b) /\
    forall j p, lookupZ scenario_keys j = Some (4000, p) ->
                j = b + p /\ b <= j.
Proof.
  apply (FindSnapshotBundleIdForHeight_part_offsets scenario
           scenario_collector scenario_keys 10 4000);
    first [ reflexivity
          | now apply synthetic_pool_holds
          | cbn; lia ].
Defined.

(** X17: in such a sequence the shortcut for the latest available height
    only saves requests: the search answers with the bundle id the loop
    alone would answer with, whatever the collector's latest available
    height is. *)
Theorem FindSnapshotBundleIdForHeight_shortcut_agrees
    (X : Externals) (c : KyveSnapshotCollector) (keys : list (Z * Z))
    (fuel : nat) (height : Z) :
  pool_holds X c keys ->
  Z.of_nat (List.length keys) <= 2 ^ 62 ->
  (List.length keys <= fuel)%nat ->
  nondecreasing (map fst keys) = true ->
  parts_numbered keys = true ->
  In height (map fst keys) ->
  exists log log' b,
    FindSnapshotBundleIdForHeight X fuel c height = Some (log, inr b) /\
    binarySearch X fuel c height 0 (totalBundles c - 1) = Some (log', inr b).
Proof.
  intros Hholds Hsmall Hfuel Hs Hp Hin.
  destruct (find_present X c keys height _ eq_refl Hholds Hs Hsmall Hp
              fuel Hfuel Hin) as (log & b & E & Hfirst).
  destruct (search_present X c keys height _ eq_refl Hholds Hs Hsmall Hp
              fuel Hfuel Hin) as (log' & b' & E' & Hfirst').
  exists log, log', b. split; [exact E|].
  rewrite (proj1 Hholds), E'.
  now rewrite (first_bundle_unique keys height b b' Hs Hfirst Hfirst').
Qed.

Lemma FindSnapshotBundleIdForHeight_shortcut_agrees_witness :
  exists log log' b,
    FindSnapshotBundleIdForHeight scenario 10 scenario_collector 4000
      = Some (log, inr b) /\
    binarySearch scenario 10 scenario_collector 4000 0
      (totalBundles scenario_collector - 1) = Some (log', inr b).
Proof.
  apply (FindSnapshotBundleIdForHeight_shortcut_agrees scenario
           scenario_collector scenario_keys 10 4000);
    first [ reflexivity
          | now apply synthetic_pool_holds
          | cbn; lia ].
Defined.

(** ** The start command *)

Lemma TrimSuffix_removes (s : string) (c : ascii) :
  TrimSuffix (s ++ String c EmptyString) c = s.
Proof.
  induction s as [|a s IH]; cbn.
  - now rewrite Ascii.eqb_refl.
  - cbn in IH. rewrite IH. destruct s; reflexivity.
Qed.

Lemma TrimSuffix_keeps (s : string) (c : ascii) :
  (forall t, s <> (t ++ String c EmptyString)%string) ->
  TrimSuffix s c = s.
Proof.
  induction s as [|a s IH]; intros Hno; [reflexivity|].
  cbn. destruct s as [|b s].
  - destruct (Ascii.eqb_spec a c) as [->|]; [|reflexivity].
    exfalso. now apply (Hno EmptyString).
  - f_equal. apply IH. intros t Ht. apply (Hno (String a t)).
    cbn. now rewrite Ht.
Qed.

Lemma nonempty_eqb (s : string) : s <> EmptyString -> String.eqb s "" = false.
Proof. intros H. now destruct s. Qed.

(** X18: the start command hands over to an executor exactly when it has
    an endpoint to use (one given, or a chain id it knows) and a runnable
    mode (db, p2p, or auto with a daemon path).  Otherwise it panics, and
    the chain id is judged first: without an endpoint an unknown chain id
    is the panic, whatever the mode; then auto without a daemon path; then
    an unknown mode.  With an endpoint given the chain id is not looked
    at. *)
Theorem start_command_outcome
    (E : StartCommand.Endpoints) (g : StartCommand.Globals) :
  let endpoint_known :=
    StartCommand.restEndpoint g <> EmptyString \/
    StartCommand.known_chain (StartCommand.chainId g) in
  let runnable :=
    StartCommand.mode g = "db"%string \/ StartCommand.mode g = "p2p"%string \/
    (StartCommand.mode g = "auto"%string /\
     StartCommand.daemonPath g <> EmptyString) in
  ((exists l, snd (StartCommand.Run E g) = StartCommand.Started l)
   <-> endpoint_known /\ runnable) /\
  (~ endpoint_known ->
   snd (StartCommand.Run E g)
     = StartCommand.Panicked StartCommand.InvalidChainId) /\
  (endpoint_known -> StartCommand.mode g = "auto"%string ->
   StartCommand.daemonPath g = EmptyString ->
   snd (StartCommand.Run E g)
     = StartCommand.Panicked StartCommand.DaemonPathRequired) /\
  (endpoint_known -> ~ runnable ->
   StartCommand.mode g <> "auto"%string ->
   snd (StartCommand.Run E g)
     = StartCommand.Panicked StartCommand.InvalidMode).
Proof.
  intros endpoint_known runnable.
  unfold endpoint_known, runnable, StartCommand.known_chain,
    StartCommand.Run.
  destruct (String.eqb_spec (StartCommand.restEndpoint g) "") as [He|He];
    [destruct (String.eqb_spec (StartCommand.chainId g) "kyve-1") as [Hc1|Hc1];
     [|destruct (String.eqb_spec (StartCommand.chainId g) "kaon-1")
         as [Hc2|Hc2];
       [|destruct (String.eqb_spec (StartCommand.chainId g) "korellia")
           as [Hc3|Hc3]]]|];
    cbn [StartCommand.mode StartCommand.daemonPath
         StartCommand.set_restEndpoint snd];
    try (destruct (String.eqb_spec (StartCommand.mode g) "auto") as [Hm1|Hm1];
         [destruct (String.eqb_spec (StartCommand.daemonPath g) "")
            as [Hd|Hd]
         |destruct (String.eqb_spec (StartCommand.mode g) "db") as [Hm2|Hm2];
          [|destruct (String.eqb_spec (StartCommand.mode g) "p2p")
              as [Hm3|Hm3]]]);
    cbn [snd];
    (split; [split; [intros [l Hl]; try discriminate Hl|intros Hv; eauto]|]);
    try (repeat split; intros; try reflexivity; try congruence; tauto);
    try (exfalso; intuition congruence);
    try (split; [tauto|]; intuition congruence);
    try (split; [auto; tauto|]; repeat split; intros;
         try reflexivity; exfalso; intuition congruence).
Qed.

Lemma start_command_outcome_witness :
  exists l,
    snd (StartCommand.Run StartCommand.example_endpoints
           StartCommand.example_globals) = StartCommand.Started l.
Proof.
  pose proof (start_command_outcome StartCommand.example_endpoints
                StartCommand.example_globals) as H.
  cbv zeta in H. destruct H as [[_ H] _]. apply H. split.
  - right. left. reflexivity.
  - left. reflexivity.
Defined.

(** X19: one slash at the end of the endpoint given to the start command
    makes no difference: for an endpoint that is not empty and does not end
    with a slash, the command does the same with and without a slash
    appended, and leaves the same package variables behind. *)
Theorem start_command_trailing_slash
    (E : StartCommand.Endpoints) (g : StartCommand.Globals)
    (endpoint : string) :
  endpoint <> EmptyString ->
  (forall t, endpoint <> (t ++ "/")%string) ->
  StartCommand.Run E (StartCommand.set_restEndpoint g (endpoint ++ "/"))
    = StartCommand.Run E (StartCommand.set_restEndpoint g endpoint).
Proof.
  intros Hne Hslash. unfold StartCommand.Run.
  cbn [StartCommand.restEndpoint StartCommand.set_restEndpoint].
  rewrite (nonempty_eqb endpoint Hne).
  rewrite nonempty_eqb by (destruct endpoint; discriminate).
  cbn [StartCommand.restEndpoint StartCommand.set_restEndpoint
       StartCommand.mode StartCommand.daemonPath StartCommand.home
       StartCommand.seeds StartCommand.flags StartCommand.poolId
       StartCommand.targetHeight StartCommand.chainId].
  rewrite (TrimSuffix_removes endpoint "/"%char).
  rewrite (TrimSuffix_keeps endpoint "/"%char Hslash).
  reflexivity.
Qed.

Lemma start_command_trailing_slash_witness :
  StartCommand.Run StartCommand.example_endpoints
    (StartCommand.set_restEndpoint StartCommand.example_globals
       "http://localhost:1317/")
  = StartCommand.Run StartCommand.example_endpoints
      (StartCommand.set_restEndpoint StartCommand.example_globals
         "http://localhost:1317").
Proof.
  apply (start_command_trailing_slash StartCommand.example_endpoints
           StartCommand.example_globals "http://localhost:1317").
  - discriminate.
  - intros t Ht.
    pose proof (TrimSuffix_removes t "/"%char) as R.
    rewrite <- Ht in R. cbn in R. subst t. discriminate Ht.
Defined.

(** ** The two roles of [GetSnapshotHeight] *)

(** X20: for an interval that is not negative, the serve role never
    resolves a target to a later height than the other role does, and to
    an earlier one only by exactly one interval, on a request for the
    latest snapshot. *)
Theorem GetSnapshotHeight_roles
    (c : KyveSnapshotCollector) (targetHeight served synced : Z) :
  Int64.int64 (latestAvailableHeight c) -> 0 <= interval c ->
  GetSnapshotHeight c targetHeight true = Returns served ->
  GetSnapshotHeight c targetHeight false = Returns synced ->
  served = synced \/
  (served = synced - interval c /\
   synced = latestAvailableHeight c /\
   (targetHeight = 0 \/ latestAvailableHeight c < targetHeight)).
Proof.
  intros Rl Hi Es En. unfold GetSnapshotHeight in Es, En.
  destruct ((targetHeight =? 0) || (latestAvailableHeight c <? targetHeight))
    eqn:Hreq.
  - cbn [andb] in Es, En. injection En as <-.
    apply orb_true_iff in Hreq.
    assert (targetHeight = 0 \/ latestAvailableHeight c < targetHeight)
      by (destruct Hreq; [left|right]; lia).
    destruct (Z.ltb_spec (interval c) (latestAvailableHeight c)).
    + injection Es as <-. right.
      unfold Int64.int64, Int64.min_int64, Int64.max_int64 in Rl.
      rewrite sub_exact
        by (unfold Int64.int64, Int64.min_int64, Int64.max_int64; lia).
      auto.
    + injection Es as <-. now left.
  - left. congruence.
Qed.

Lemma GetSnapshotHeight_roles_witness :
  3000 = 4000 \/
  (3000 = 4000 - interval scenario_collector /\
   4000 = latestAvailableHeight scenario_collector /\
   (0 = 0 \/ latestAvailableHeight scenario_collector < 0)).
Proof.
  apply (GetSnapshotHeight_roles scenario_collector 0 3000 4000);
    try reflexivity;
    unfold Int64.int64, Int64.min_int64, Int64.max_int64; cbn; lia.
Defined.
